(** * sqlstream: the relational video player, embedded and verified

    A shallow embedding of [src/sqlstream.py]: the frame encoder
    ([frame_to_ansi]), the two SQLite tables ([frame_library], [display]),
    the ingestion loop, the playback loop and the command dispatch in [main].

    What is outside the program is an input of the model: OpenCV's
    [cv2.resize] and [cv2.cvtColor], the decoded video stream, the terminal
    size and the file system.

    Left out: the progress messages of [ingest], the text of the status
    line (its numbers are kept), the sleep that paces playback, and the
    keyboard interrupt. *)

From Stdlib Require Import ZArith NArith Strings.Byte Ascii String DecimalString.
From stdpp Require Import base numbers option list list_numbers strings
  gmap fin_maps sorting.

Local Open Scope string_scope.
Local Open Scope list_scope.
Local Open Scope Z_scope.

(** ** Python exceptions and the error monad *)

Inductive exn : Type :=
  | TypeError
  | IndexError
  | IntegrityError
  | AttributeError
  | ZeroDivisionError
  | CvError.

Inductive result (A : Type) : Type :=
  | Ok (a : A)
  | Raise (e : exn).
Arguments Ok {A} a.
Arguments Raise {A} e.

#[global] Instance result_ret : MRet result := fun _ a => Ok a.
#[global] Instance result_bind : MBind result := fun _ _ f m =>
  match m with
  | Ok a => f a
  | Raise e => Raise e
  end.
#[global] Instance result_fmap : FMap result := fun _ _ f m =>
  match m with
  | Ok a => Ok (f a)
  | Raise e => Raise e
  end.

(** ** The frame encoder *)

Module Encoder.

(** One element of a row of the resized frame: OpenCV stores the channels
    of a pixel in the order blue, green, red, each a [uint8]. *)
Record pixel : Type := BGR { blue : byte; green : byte; red : byte }.

(** [self.chars], the default argument of [SQLVideoEngine.__init__]. *)
Definition default_chars : string := "@%#*+=-:. ".

(** The escape character, written [\033] in the source. *)
Definition ESC : string := String "027"%char "".

(** [f"{c}"] for a [uint8] channel: its decimal digits, no padding. *)
Definition fmt_u8 (c : byte) : string :=
  NilZero.string_of_uint (N.to_uint (Byte.to_N c)).

(** [f"\033[48;2;{r};{g};{b}m "]: the background colour escape followed by
    one space. *)
Definition color_cell (p : pixel) : string :=
  ESC +:+ "[48;2;" +:+ fmt_u8 (red p) +:+ ";" +:+ fmt_u8 (green p) +:+ ";"
      +:+ fmt_u8 (blue p) +:+ "m ".

(** [\033[0m] *)
Definition reset_code : string := ESC +:+ "[0m".

(** [str.join] with the empty separator. *)
Definition join_empty (parts : list string) : string :=
  foldr String.append "" parts.

(** Line 51: the colour line of one row. *)
Definition color_line (row : list pixel) : string :=
  join_empty (color_cell <$> row) +:+ reset_code.

(** [p // 32] on a [uint8]. *)
Definition bucket (p : byte) : N := (Byte.to_N p / 32)%N.

(** [self.chars[p // 32]]: the index is never negative, so Python's
    indexing raises [IndexError] exactly when it is past the end. *)
Definition glyph (chars : string) (p : byte) : result string :=
  match String.get (N.to_nat (bucket p)) chars with
  | Some c => Ok (String c "")
  | None => Raise IndexError
  end.

(** Line 55: the glyph line of one row of luminances. *)
Definition glyph_line (chars : string) (gray : list byte) : result string :=
  join_empty <$> mapM (glyph chars) gray.

(** The number of decimal digits of a channel value. *)
Definition digits (c : byte) : nat :=
  if bool_decide (Byte.to_N c < 10)%N then 1
  else if bool_decide (Byte.to_N c < 100)%N then 2 else 3.

(** The length of the colour escape of a pixel, without the space that
    follows it: [ESC], [[48;2;], two [;], [m] and the digits. *)
Definition escape_length (p : pixel) : nat :=
  10 + digits (red p) + digits (green p) + digits (blue p).

(** The length of [reset_code]. *)
Definition reset_length : nat := 4.

Section frame_to_ansi.
(** A decoded frame, as [cap.read()] returns it. *)
Variable raw_frame : Type.
(** [cv2.resize(frame, (w, h), interpolation=cv2.INTER_AREA)]: the rows
    of the resampled frame, or [cv2.error]. *)
Variable resize : raw_frame → Z → Z → result (list (list pixel)).
(** [cv2.cvtColor(..., COLOR_BGR2GRAY)] works pixel by pixel; its
    weighting is OpenCV's and is left open here. *)
Variable bgr2gray : pixel → byte.

(** One iteration of the loop of lines 48-56. *)
Definition encode_row (chars : string) (use_color : bool) (row : list pixel)
    : result string :=
  if use_color then Ok (color_line row)
  else glyph_line chars (bgr2gray <$> row).

(** Lines 44-57. [display_w] and [display_h] are [None] until [ingest]
    has resolved them; [cv2.resize] refuses such a size. *)
Definition frame_to_ansi (chars : string) (display_w display_h : option Z)
    (frame : raw_frame) (use_color : bool) : result (list string) :=
  match display_w, display_h with
  | Some w, Some h =>
      resized ← resize frame w h;
      mapM (encode_row chars use_color) resized
  | _, _ => Raise CvError
  end.
End frame_to_ansi.

(** *** Reading a colour line back *)

(** An ASCII decimal digit, and its value. *)
Definition is_digit (c : ascii) : bool :=
  (48 <=? nat_of_ascii c)%nat && (nat_of_ascii c <=? 57)%nat.
Definition digit_value (c : ascii) : N := N.of_nat (nat_of_ascii c - 48).

(** The number written by the longest run of digits at the head of a
    string, and what follows it; [None] when there is no digit. *)
Fixpoint read_digits (s : string) (acc : N) (any : bool) : option (N * string) :=
  match s with
  | String c s' =>
      if is_digit c then read_digits s' (10 * acc + digit_value c)%N true
      else if any then Some (acc, s) else None
  | EmptyString => if any then Some (acc, s) else None
  end.

Definition read_u8 (s : string) : option (byte * string) :=
  ns ← read_digits s 0%N false;
  c ← Byte.of_N ns.1;
  Some (c, ns.2).

(** [strip pre s] is [s] without its prefix [pre]. *)
Fixpoint strip (pre s : string) : option string :=
  match pre, s with
  | EmptyString, _ => Some s
  | String a pre', String b s' => if Ascii.eqb a b then strip pre' s' else None
  | String _ _, EmptyString => None
  end.

(** The pixel of the colour cell at the head of a string, and the rest. *)
Definition decode_cell (s : string) : option (pixel * string) :=
  s1 ← strip (ESC +:+ "[48;2;") s;
  r ← read_u8 s1;
  s2 ← strip ";" r.2;
  g ← read_u8 s2;
  s3 ← strip ";" g.2;
  b ← read_u8 s3;
  s4 ← strip "m " b.2;
  Some (BGR b.1 g.1 r.1, s4).

End Encoder.

(** ** The frame store: the two SQLite tables *)

Module Store.

(** A row of [frame_library (frame_id INTEGER, line_no INTEGER, content TEXT)].
    The table has no key: rows are kept in insertion (rowid) order and may
    repeat. A [TEXT] column may hold [NULL], which is [None]. *)
Record lib_row : Type :=
  LibRow { frame_id : Z; line_no : Z; content : option string }.

(** The database: [display (line_no INTEGER PRIMARY KEY, content TEXT)] has
    at most one row per [line_no], so it is a finite map from [line_no] to
    the nullable content. *)
Record db : Type :=
  Db { frame_library : list lib_row; display : gmap Z (option string) }.

(** Lines 32-36: both tables are dropped and created again, empty. *)
Definition _prepare_tables (d : db) : db := Db [] ∅.

(** Line 87: [executemany("INSERT INTO frame_library VALUES (?, ?, ?)", batch)]. *)
Definition insert_frames (batch : list lib_row) (d : db) : db :=
  Db (frame_library d ++ batch) (display d).

(** [INSERT INTO display VALUES (?, '')]: a second row with the same primary
    key is refused with [sqlite3.IntegrityError]. *)
Definition insert_display (ln : Z) (d : db) : result db :=
  match display d !! ln with
  | Some _ => Raise IntegrityError
  | None => Ok (Db (frame_library d) (<[ln := Some ""]> (display d)))
  end.

(** Line 88: [executemany] over [[(i,) for i in range(display_h)]]. *)
Fixpoint insert_display_many (keys : list Z) (d : db) : result db :=
  match keys with
  | [] => Ok d
  | ln :: rest => d' ← insert_display ln d; insert_display_many rest d'
  end.

(** [range(n)] *)
Definition range (n : Z) : list Z := seqZ 0 n.

(** The aggregate [MAX] of SQL: [NULL] over no rows. *)
Definition sql_max (xs : list Z) : option Z :=
  foldr (λ x acc, Some (from_option (Z.max x) x acc)) None xs.

(** Line 96: [SELECT MAX(frame_id) FROM frame_library]. *)
Definition max_frame_id (d : db) : option Z :=
  sql_max (frame_id <$> frame_library d).

(** The [WHERE] clause of lines 105-106. *)
Definition matches (f ln : Z) (r : lib_row) : bool :=
  bool_decide (frame_id r = f) && bool_decide (line_no r = ln).

(** The scalar subquery of lines 105-106: the content of the first row that
    matches, in table order, and [NULL] when no row matches. *)
Definition subquery (lib : list lib_row) (f ln : Z) : option string :=
  match find (matches f ln) lib with
  | Some r => content r
  | None => None
  end.

(** Lines 103-108: [UPDATE display SET content = (SELECT ...)], on every row
    of [display]. *)
Definition sync_frame (f : Z) (d : db) : db :=
  Db (frame_library d)
     (map_imap (λ ln _, Some (subquery (frame_library d) f ln)) (display d)).

(** [ORDER BY line_no] *)
Definition by_line_no (a b : Z * option string) : Prop := a.1 ≤ b.1.

#[global] Instance by_line_no_dec a b : Decision (by_line_no a b).
Proof. unfold by_line_no. apply _. Defined.

(** Lines 111-112: [SELECT content FROM display ORDER BY line_no]. *)
Definition read_current (d : db) : list (option string) :=
  snd <$> merge_sort by_line_no (map_to_list (display d)).

End Store.

(** ** The engine: ingestion, playback and the command line *)

Module Engine.
Import Encoder Store.

(** The fields of [SQLVideoEngine]; [conn] is the database behind the
    connection. *)
Record engine : Type := SQLVideoEngine {
  db_path : string;
  chars : string;
  display_w : option Z;
  display_h : option Z;
  conn : db
}.

(** [x or y] on an optional integer: [None] and [0] are false. *)
Definition py_or (x : option Z) (y : Z) : Z :=
  match x with
  | Some v => if bool_decide (v = 0) then y else v
  | None => y
  end.

(** [x if x else y] on an optional string, and [if x:]: [None] and the
    empty string are false. *)
Definition nonempty (x : option string) : option string :=
  match x with
  | Some s => if String.eqb s "" then None else Some s
  | None => None
  end.

(** [enumerate] *)
Fixpoint enumerate_from {A} (i : Z) (l : list A) : list (Z * A) :=
  match l with
  | [] => []
  | x :: l' => (i, x) :: enumerate_from (i + 1) l'
  end.
Definition enumerate {A} (l : list A) : list (Z * A) := enumerate_from 0 l.

(** Lines 81-82: the rows one frame adds to the batch. *)
Definition frame_rows (frame_id : Z) (lines : list string) : list lib_row :=
  (λ il, LibRow frame_id il.1 (Some il.2)) <$> enumerate lines.

(** The rows of a frame whose first line has number [i0]. *)
Definition rows_from (f i0 : Z) (lines : list string) : list lib_row :=
  (λ il, LibRow f il.1 (Some il.2)) <$> enumerate_from i0 lines.

(** The batch of the frames numbered from [frame_id] on, given the lines of
    each: what the loop of lines 77-83 accumulates. *)
Fixpoint batch_of (frame_id : Z) (frames : list (list string)) : list lib_row :=
  match frames with
  | [] => []
  | lines :: rest => frame_rows frame_id lines ++ batch_of (frame_id + 1) rest
  end.

(** The [line_no] of the rows stored for frame [f], in table order. *)
Definition stored_line_nos (f : Z) (d : db) : list Z :=
  line_no <$> filter (λ r, frame_id r = f) (frame_library d).

(** Every frame from 0 to [total] has a row with text for each [line_no]
    of the mirror. *)
Definition playable (d : db) (total : Z) : bool :=
  forallb (λ f, forallb (λ ln, bool_decide (is_Some (subquery (frame_library d) f ln)))
                        (map_to_list (display d)).*1)
          (range (total + 1)).

(** [source.startswith(('http://', 'https://'))] *)
Definition is_url (source : string) : bool :=
  String.prefix "http://" source || String.prefix "https://" source.

(** What one iteration of the playback loop puts on the terminal: the
    joined lines and the numbers of the status line. *)
Record tick : Type := Tick {
  tick_frame : Z;
  tick_total : Z;
  tick_output : string;
  tick_updates : Z
}.

(** [str.join] on the fetched contents: a [None] item is a [TypeError]. *)
Fixpoint join_lines (contents : list (option string)) : result string :=
  match contents with
  | [] => Ok ""
  | None :: _ => Raise TypeError
  | Some s :: [] => Ok s
  | Some s :: rest => tl ← join_lines rest; Ok (s +:+ String "010"%char tl)
  end.

(** [str.join] with a newline between lines that are all text. *)
Fixpoint join_nl (lines : list string) : string :=
  match lines with
  | [] => ""
  | s :: [] => s
  | s :: rest => s +:+ String "010"%char (join_nl rest)
  end.

(** How a call ends: it returns, an exception leaves it, or [sys.exit]. *)
Inductive outcome : Type :=
  | Returned
  | Raised (e : exn)
  | Exited (code : Z).

(** The exit status of the interpreter. *)
Definition exit_status (o : outcome) : Z :=
  match o with
  | Returned => 0
  | Raised _ => 1
  | Exited code => code
  end.

(** The result of [play]: the database, the frames put on the terminal,
    oldest first, and how the call ended. *)
Record played : Type := Played {
  final : db;
  ticks : list tick;
  ending : outcome
}.

(** What [main] does to the outside, oldest first. *)
Inductive event : Type :=
  | Printed (s : string)
  | Connected (path : string)
  | Rendered (t : tick).

(** The parsed command line. *)
Record args : Type := Args {
  source : option string;
  play_db : option string;
  duration : Z;
  fps : Z;
  color : bool;
  out : option string
}.

Section world.
Variable raw_frame : Type.
Variable resize : raw_frame → Z → Z → result (list (list pixel)).
Variable bgr2gray : pixel → byte.
(** [yt_dlp]: the stream behind a URL. *)
Variable get_stream_url : string → string.
(** [cv2.VideoCapture]: the frames of a source, [None] when it does not
    open. *)
Variable video_capture : string → option (list raw_frame).
(** [shutil.get_terminal_size()]: columns, rows. *)
Variable terminal_size : Z * Z.
(** [int(video_fps * duration)] for a source, a duration and a target
    rate; the float product is the interpreter's. *)
Variable frame_budget : string → Z → Z → Z.
(** [os.path.exists] *)
Variable path_exists : string → bool.
(** The database stored in a file. *)
Variable disk_db : string → db.

(** [sqlite3.connect]: a fresh database for [:memory:]. *)
Definition connect (path : string) : db :=
  if String.eqb path ":memory:" then Db [] ∅ else disk_db path.

(** Lines 12-23, with the defaults [main] leaves in place. *)
Definition new_engine (path : string) : engine :=
  SQLVideoEngine path default_chars None None (connect path).

Definition with_conn (eng : engine) (d : db) : engine :=
  SQLVideoEngine (db_path eng) (chars eng) (display_w eng) (display_h eng) d.

(** Lines 77-85: the loop reads a frame while [frame_id < max_frames] and
    stops at the end of the stream. *)
Fixpoint ingest_loop (eng : engine) (use_color : bool) (max_frames : Z)
    (stream : list raw_frame) (frame_id : Z) (batch : list lib_row)
    : result (Z * list lib_row) :=
  if bool_decide (frame_id < max_frames) then
    match stream with
    | [] => Ok (frame_id, batch)
    | frame :: rest =>
        lines ← frame_to_ansi raw_frame resize bgr2gray (chars eng)
                  (display_w eng) (display_h eng) frame use_color;
        ingest_loop eng use_color max_frames rest (frame_id + 1)
          (batch ++ frame_rows frame_id lines)
    end
  else Ok (frame_id, batch).

(** Lines 62-63: [video_src]. *)
Definition video_source (src : string) : string :=
  if is_url src then get_stream_url src else src.

(** Lines 59-92. *)
Definition ingest (eng : engine) (source : option string)
    (duration fps_target : Z) (use_color : bool) : result (engine * bool) :=
  let d0 := _prepare_tables (conn eng) in
  match source with
  | None => Raise AttributeError
  | Some src =>
      let video_src := video_source src in
      match video_capture video_src with
      | None => Ok (with_conn eng d0, false)
      | Some stream =>
          let w := py_or (display_w eng) terminal_size.1 in
          let h := py_or (display_h eng) (terminal_size.2 - 3) in
          let eng' := SQLVideoEngine (db_path eng) (chars eng) (Some w) (Some h) d0 in
          let max_frames := frame_budget video_src duration fps_target in
          fb ← ingest_loop eng' use_color max_frames stream 0 [];
          d2 ← insert_display_many (range h) (insert_frames fb.2 d0);
          Ok (with_conn eng' d2, true)
      end
  end.

(** Lines 100-121, for the frame numbers still to play. The pacing of
    line 120 divides by [fps_target]. *)
Fixpoint play_loop (fps_target total : Z) (ids : list Z) (d : db)
    (shown : list tick) : played :=
  match ids with
  | [] => Played d shown Returned
  | f_id :: rest =>
      let d' := sync_frame f_id d in
      let frame_data := read_current d' in
      match join_lines frame_data with
      | Raise e => Played d' shown (Raised e)
      | Ok output =>
          let updates := (f_id + 1) * Z.of_nat (length frame_data) in
          let shown' := shown ++ [Tick f_id total output updates] in
          if bool_decide (fps_target = 0)
          then Played d' shown' (Raised ZeroDivisionError)
          else play_loop fps_target total rest d' shown'
      end
  end.

(** Lines 94-121: [total + 1] is a [TypeError] when [total] is [None]. *)
Definition play (eng : engine) (fps_target : Z) : played :=
  match max_frame_id (conn eng) with
  | None => Played (conn eng) [] (Raised TypeError)
  | Some total => play_loop fps_target total (range (total + 1)) (conn eng) []
  end.

(** Lines 123-157. *)
Definition main (a : args) : list event * outcome :=
  match nonempty (play_db a) with
  | Some path =>
      if negb (path_exists path) then
        ([Printed ("Error: Database file " +:+ path +:+ " not found.")],
         Exited 1)
      else
        let eng := new_engine ":memory:" in
        let eng' := with_conn eng (disk_db path) in
        let r := play eng' (fps a) in
        ([Connected ":memory:"; Connected path] ++ (Rendered <$> ticks r),
         ending r)
  | None =>
      let db_destination := default ":memory:" (nonempty (out a)) in
      let eng := new_engine db_destination in
      match ingest eng (source a) (duration a) (fps a) (color a) with
      | Raise e => ([Connected db_destination], Raised e)
      | Ok (eng', true) =>
          let r := play eng' (fps a) in
          (Connected db_destination :: (Rendered <$> ticks r), ending r)
      | Ok (_, false) => ([Connected db_destination], Returned)
      end
  end.
End world.

End Engine.

(** ** A two-frame clip for the examples *)

Module Clip.
Import Encoder Store Engine.

Definition black : pixel := BGR x00 x00 x00.
Definition white : pixel := BGR xff xff xff.

(** A frame of one colour is given by that colour: resampling it gives the
    colour at every pixel, and OpenCV refuses an empty size. *)
Definition solid_resize (p : pixel) (w h : Z) : result (list (list pixel)) :=
  if bool_decide (0 < w ∧ 0 < h)
  then Ok (replicate (Z.to_nat h) (replicate (Z.to_nat w) p))
  else Raise CvError.

(** The luminance of a gray pixel is the value its channels share. *)
Definition gray_level (p : pixel) : byte := green p.

(** One file that opens and holds a black frame, then a white one. *)
Definition capture (src : string) : option (list pixel) :=
  if String.eqb src "clip.mp4" then Some [black; white] else None.

Definition stream_url (url : string) : string := url.

(** Two columns and five rows: a display of two lines. *)
Definition terminal : Z * Z := (2, 5).

(** The source reports no rate, so the target rate counts. *)
Definition budget (src : string) (duration fps_target : Z) : Z :=
  fps_target * duration.

Definition no_path (path : string) : bool := false.
Definition no_db (path : string) : db := Db [] ∅.

Definition ingest_clip (eng : engine) (use_color : bool) : result (engine * bool) :=
  ingest pixel solid_resize gray_level stream_url capture terminal budget
    eng (Some "clip.mp4") 1 10 use_color.

(** The engine before and after the ingestion of the clip in glyph mode. *)
Definition fresh : engine := new_engine no_db ":memory:".
Definition ingested : engine :=
  match ingest_clip fresh false with
  | Ok (eng, _) => eng
  | Raise _ => fresh
  end.

(** A stored database whose archive lacks frame 1. *)
Definition gapped : engine :=
  SQLVideoEngine "gap.db" default_chars None None
    (Db [LibRow 0 0 (Some "a"); LibRow 2 0 (Some "c")] {[0 := Some ""]}).


(** A file system with one database file, which holds what the ingestion
    of the clip wrote. *)
Definition saved_path (path : string) : bool := String.eqb path "clip.db".
Definition saved_db (path : string) : db := conn ingested.

(** The engine after the ingestion that [--out clip.db] asks for. *)
Definition saved : engine :=
  match ingest pixel solid_resize gray_level stream_url capture terminal budget
          (new_engine saved_db "clip.db") (Some "clip.mp4") 1 10 false with
  | Ok (eng, _) => eng
  | Raise _ => fresh
  end.

(** Command lines: a source that does not open, a duration of zero
    seconds, an empty [--play-db], an ingestion kept in [clip.db] and its
    replay. *)
Definition ingest_nope : args := Args (Some "nope.mp4") None 60 30 false None.
Definition ingest_zero : args := Args (Some "clip.mp4") None 0 30 false None.
Definition empty_play_db : args := Args None (Some "") 60 30 false None.
Definition ingest_saved : args :=
  Args (Some "clip.mp4") None 1 10 false (Some "clip.db").
Definition replay_saved : args := Args None (Some "clip.db") 60 10 false None.

(** [--play-db lost.db], the other options at their defaults. *)
Definition replay_lost : args := Args None (Some "lost.db") 60 30 false None.

End Clip.

Import Encoder Store Engine.

(** * Properties of the encoder *)

Section encoder_facts.

Lemma string_length_app (s t : string) :
  String.length (s +:+ t) = (String.length s + String.length t)%nat.
Proof. induction s as [|c s IH]; simpl; [done|]. by rewrite IH. Qed.

Lemma fmt_u8_length (c : byte) : String.length (fmt_u8 c) = digits c.
Proof. destruct c; vm_compute; reflexivity. Qed.

Lemma digits_bounds (c : byte) : (1 ≤ digits c ≤ 3)%nat.
Proof. unfold digits. repeat case_bool_decide; lia. Qed.

Lemma color_cell_length (p : pixel) :
  String.length (color_cell p) = S (escape_length p).
Proof.
  unfold color_cell, escape_length.
  rewrite !string_length_app, !fmt_u8_length. simpl. lia.
Qed.

Lemma escape_length_bounds (p : pixel) : (13 ≤ escape_length p ≤ 19)%nat.
Proof.
  unfold escape_length.
  pose proof (digits_bounds (red p)). pose proof (digits_bounds (green p)).
  pose proof (digits_bounds (blue p)). lia.
Qed.

Lemma join_empty_length (parts : list string) :
  String.length (join_empty parts) = sum_list (String.length <$> parts).
Proof.
  induction parts as [|s parts IH]; simpl; [done|].
  by rewrite string_length_app, IH.
Qed.

Lemma color_line_length (row : list pixel) :
  String.length (color_line row)
  = (sum_list ((λ p, S (escape_length p)) <$> row) + reset_length)%nat.
Proof.
  unfold color_line. rewrite string_length_app, join_empty_length.
  f_equal. rewrite <-list_fmap_compose. f_equal.
  apply list_fmap_ext. intros _ p _. apply color_cell_length.
Qed.

Lemma sum_list_bounds {A} (f : A → nat) (lo hi : nat) (l : list A) :
  (∀ x, lo ≤ f x ≤ hi)%nat →
  (length l * lo ≤ sum_list (f <$> l) ≤ length l * hi)%nat.
Proof.
  intros Hf. induction l as [|x l IH]; [simpl; lia|].
  rewrite fmap_cons, length_cons. change (sum_list (f x :: (f <$> l)))
    with (f x + sum_list (f <$> l))%nat.
  specialize (Hf x). lia.
Qed.

(** C5, as the code has it: the length of a colour line is the sum, over
    the pixels of the row, of the pixel's escape length plus one for the
    space, plus the length 4 of the reset code. The escape length of a
    pixel is 10 plus the number of decimal digits of its three channels,
    so the line has between [14 * W + 4] and [20 * W + 4] characters. *)
Theorem C5_color_line_length (row : list pixel) :
  String.length (color_line row)
  = (sum_list ((λ p, escape_length p + 1) <$> row) + reset_length)%nat
  ∧ String.length reset_code = reset_length
  ∧ (∀ p, escape_length p
          = 10 + digits (red p) + digits (green p) + digits (blue p)
          ∧ 13 ≤ escape_length p ≤ 19)%nat
  ∧ (length row * 14 + 4 ≤ String.length (color_line row)
     ≤ length row * 20 + 4)%nat.
Proof.
  split; [|split; [|split]].
  - rewrite color_line_length. do 2 f_equal.
    apply list_fmap_ext. intros; lia.
  - reflexivity.
  - intros p. split; [reflexivity|apply escape_length_bounds].
  - rewrite color_line_length. unfold reset_length.
    assert (∀ p, 14 ≤ S (escape_length p) ≤ 20)%nat as Hb
      by (intros p; pose proof (escape_length_bounds p); lia).
    pose proof (sum_list_bounds _ 14 20 row Hb). lia.
Qed.

(** C5, as the spec has it, fails: no two constants give the length of
    every colour line. A black pixel takes 14 characters, a white one 20. *)
Lemma C5_no_fixed_escape_length :
  ¬ ∃ colorEscapeLength resetCodeLength : nat, ∀ row : list pixel,
      String.length (color_line row)
      = (length row * (colorEscapeLength + 1) + resetCodeLength)%nat.
Proof.
  intros (c & r & H).
  pose proof (H [BGR x00 x00 x00]) as H0.
  pose proof (H [BGR xff xff xff]) as H1.
  change (String.length (color_line [BGR x00 x00 x00])) with 18%nat in H0.
  change (String.length (color_line [BGR xff xff xff])) with 24%nat in H1.
  simpl length in *. lia.
Qed.

Lemma bucket_lt_8 (p : byte) : (bucket p < 8)%N.
Proof.
  unfold bucket. pose proof (Byte.to_N_bounded p).
  apply N.Div0.div_lt_upper_bound. lia.
Qed.

Lemma bucket_mono (p q : byte) :
  (Byte.to_N p ≤ Byte.to_N q)%N → (bucket p ≤ bucket q)%N.
Proof. intros Hpq. unfold bucket. by apply N.Div0.div_le_mono. Qed.

Lemma bucket_boundaries (p : byte) (j : N) :
  bucket p = j ↔ (32 * j ≤ Byte.to_N p < 32 * (j + 1))%N.
Proof.
  unfold bucket. split.
  - intros <-. pose proof (N.Div0.mul_div_le (Byte.to_N p) 32).
    pose proof (N.mul_succ_div_gt (Byte.to_N p) 32). lia.
  - intros [Hlo Hhi]. symmetry. apply (N.div_unique _ _ _ (Byte.to_N p - 32 * j)); lia.
Qed.

Lemma glyph_black (c : ascii) (rest : string) :
  glyph (String c rest) x00 = Ok (String c "").
Proof. reflexivity. Qed.

Lemma glyph_white (chars : string) :
  glyph chars xff = match String.get 7 chars with
                    | Some c => Ok (String c "")
                    | None => Raise IndexError
                    end.
Proof. reflexivity. Qed.

(** C3 on the ramp the program runs with: luminance 255 is drawn as the
    eighth character [:] of the ten of [default_chars], not as its last
    one, the blank; no luminance reaches the last two characters. *)
Theorem C3_default_ramp_top_bucket :
  glyph default_chars xff = Ok ":"
  ∧ String.get (String.length default_chars - 1) default_chars = Some " "%char
  ∧ String.length default_chars = 10%nat
  ∧ ∀ p, glyph default_chars p ≠ Ok " " ∧ glyph default_chars p ≠ Ok ".".
Proof.
  split; [reflexivity|]. split; [reflexivity|]. split; [reflexivity|].
  intros p. destruct p; vm_compute; split; discriminate.
Qed.
End encoder_facts.

(** * Properties of the store *)

Section store_facts.

#[local] Instance by_line_no_trans : Transitive by_line_no.
Proof. intros a b c. unfold by_line_no. lia. Qed.

#[local] Instance by_line_no_total : Total by_line_no.
Proof. intros a b. unfold by_line_no. lia. Qed.

Lemma sync_frame_lookup (f : Z) (d : db) (ln : Z) :
  display (sync_frame f d) !! ln
  = (λ _, subquery (frame_library d) f ln) <$> display d !! ln.
Proof.
  unfold sync_frame; simpl. rewrite map_lookup_imap.
  by destruct (display d !! ln).
Qed.

Lemma sync_frame_sync (f g : Z) (d : db) :
  sync_frame f (sync_frame g d) = sync_frame f d.
Proof.
  unfold sync_frame; simpl. f_equal. apply map_eq. intros ln.
  rewrite !map_lookup_imap. by destruct (display d !! ln).
Qed.

Lemma sync_frame_dom (f : Z) (d : db) :
  dom (display (sync_frame f d)) = dom (display d).
Proof.
  apply set_eq. intros ln. rewrite !elem_of_dom, sync_frame_lookup.
  by rewrite fmap_is_Some.
Qed.

Lemma subquery_absent (lib : list lib_row) (f ln : Z) :
  f ∉ frame_id <$> lib → subquery lib f ln = None.
Proof.
  intros Hf. unfold subquery.
  induction lib as [|r lib IH]; [done|]. simpl.
  rewrite fmap_cons, not_elem_of_cons in Hf. destruct Hf as [Hr Hlib].
  unfold matches at 1. rewrite bool_decide_eq_false_2 by done. simpl.
  by apply IH.
Qed.

(** Reading the mirror when its keys are known: the contents come in
    the order of the keys. *)
Lemma read_current_keys (d : db) (keys : list Z) :
  Sorted Z.le keys → NoDup keys →
  (∀ k, k ∈ keys ↔ is_Some (display d !! k)) →
  read_current d = (λ k, default None (display d !! k)) <$> keys.
Proof.
  intros Hsorted Hnodup Hkeys. unfold read_current.
  set (m := display d) in *.
  set (l := (λ k, (k, default None (m !! k))) <$> keys).
  assert (merge_sort by_line_no (map_to_list m) = l) as ->.
  { apply (Sorted_unique_strong by_line_no).
    - intros [k1 v1] [k2 v2] H1 H2 Hle Hge.
      unfold by_line_no in *; simpl in *. assert (k1 = k2) as -> by lia.
      rewrite merge_sort_Permutation in H1.
      apply elem_of_map_to_list in H1.
      apply list_elem_of_fmap in H2 as (k & [= -> ->] & _).
      rewrite H1. done.
    - apply Sorted_merge_sort, _.
    - unfold l. eapply Sorted_fmap; [|exact Hsorted]. intros x y Hxy. exact Hxy.
    - rewrite merge_sort_Permutation. apply NoDup_Permutation.
      + apply NoDup_map_to_list.
      + apply NoDup_fmap_2; [|done]. by intros x y [= ?].
      + intros [k v]. rewrite elem_of_map_to_list. unfold l.
        rewrite list_elem_of_fmap. split.
        * intros Hkv. exists k. rewrite Hkv. split; [done|].
          apply Hkeys. by rewrite Hkv.
        * intros (k' & [= -> ->] & Hin). apply Hkeys in Hin as [v Hv].
          by rewrite Hv. }
  unfold l. by rewrite <-list_fmap_compose.
Qed.

Lemma read_current_length (d : db) :
  length (read_current d) = size (display d).
Proof.
  unfold read_current.
  by rewrite length_fmap, merge_sort_Permutation, length_map_to_list.
Qed.

(** C7: [sync_frame k] once or any number of times more leaves the same
    database, so [read_current] returns the same rows. *)
Theorem C7_sync_frame_idempotent (k : Z) (d : db) (n : nat) :
  Nat.iter (S n) (sync_frame k) d = sync_frame k d
  ∧ read_current (Nat.iter (S n) (sync_frame k) d)
    = read_current (sync_frame k d).
Proof.
  assert (Nat.iter (S n) (sync_frame k) d = sync_frame k d) as ->; [|done].
  induction n as [|n IH]; [done|].
  change (sync_frame k (Nat.iter (S n) (sync_frame k) d) = sync_frame k d).
  by rewrite IH, sync_frame_sync.
Qed.

(** C9: when no row of the archive has frame number [k], [sync_frame k]
    sets the content of every row of the mirror to NULL, whatever it
    held, and keeps the rows and their [line_no]. *)
Theorem C9_sync_absent_frame_nulls (k : Z) (d : db) :
  k ∉ frame_id <$> frame_library d →
  display (sync_frame k d) = (λ _, None) <$> display d
  ∧ dom (display (sync_frame k d)) = dom (display d)
  ∧ size (display (sync_frame k d)) = size (display d)
  ∧ read_current (sync_frame k d) = replicate (size (display d)) None.
Proof.
  intros Habsent.
  assert (display (sync_frame k d) = (λ _, None) <$> display d) as Hnull.
  { apply map_eq. intros ln. rewrite sync_frame_lookup, lookup_fmap.
    by rewrite subquery_absent. }
  split; [done|]. split; [apply sync_frame_dom|].
  split; [by rewrite Hnull, map_size_fmap|].
  apply list_eq_same_length with (size (display d)).
  - by rewrite length_replicate.
  - by rewrite read_current_length, Hnull, map_size_fmap.
  - intros i x y _ Hx Hy. apply lookup_replicate in Hy as [-> _].
    unfold read_current in Hx. rewrite list_lookup_fmap in Hx.
    destruct (merge_sort _ _ !! i) as [[ln c]|] eqn:Hi; [|done].
    simpl in Hx. injection Hx as <-.
    apply list_elem_of_lookup_2 in Hi. rewrite merge_sort_Permutation in Hi.
    apply elem_of_map_to_list in Hi. rewrite Hnull, lookup_fmap in Hi.
    destruct (display d !! ln); simpl in Hi; congruence.
Qed.

Lemma insert_display_many_fresh (keys : list Z) (d : db) :
  NoDup keys → (∀ k, k ∈ keys → display d !! k = None) →
  ∃ d', insert_display_many keys d = Ok d'
    ∧ frame_library d' = frame_library d
    ∧ ∀ k, display d' !! k
           = if bool_decide (k ∈ keys) then Some (Some "") else display d !! k.
Proof.
  revert d. induction keys as [|k0 keys IH]; intros d Hnodup Hfresh.
  { exists d. split; [done|]. split; [done|]. intros k.
    rewrite bool_decide_eq_false_2; [done|]. apply not_elem_of_nil. }
  apply NoDup_cons in Hnodup as [Hk0 Hnodup]. simpl.
  unfold insert_display. rewrite (Hfresh k0) by left. simpl.
  destruct (IH (Db (frame_library d) (<[k0:=Some ""]> (display d))) Hnodup)
    as (d' & -> & Hlib & Hdisp).
  { intros k Hk. simpl. rewrite lookup_insert_ne by (intros ->; done).
    apply Hfresh. by right. }
  exists d'. split; [done|]. split; [done|]. intros k. rewrite Hdisp. simpl.
  destruct (decide (k = k0)) as [->|Hne].
  - rewrite (bool_decide_eq_false_2 (k0 ∈ keys)) by done.
    rewrite bool_decide_eq_true_2 by left. apply lookup_insert_eq.
  - rewrite lookup_insert_ne by done.
    case_bool_decide as Hin.
    + rewrite bool_decide_eq_true_2; [done|]. by right.
    + rewrite bool_decide_eq_false_2; [done|].
      rewrite not_elem_of_cons. done.
Qed.

Lemma Sorted_range (n : Z) : Sorted Z.le (range n).
Proof.
  unfold range. generalize 0 as m.
  induction (Z.to_nat n) as [|c IH] eqn:Hc in n |- *; intros m.
  - rewrite seqZ_nil by lia. constructor.
  - rewrite seqZ_cons by lia. constructor.
    + apply IH. lia.
    + destruct (decide (Z.pred n ≤ 0)).
      * rewrite seqZ_nil by lia. constructor.
      * rewrite seqZ_cons by lia. constructor. lia.
Qed.

Lemma find_app {A} (p : A → bool) (l1 l2 : list A) :
  find p (l1 ++ l2) = match find p l1 with
                      | Some x => Some x
                      | None => find p l2
                      end.
Proof. induction l1 as [|x l1 IH]; simpl; [done|]. by destruct (p x). Qed.

Lemma sql_max_Some (xs : list Z) (m : Z) :
  sql_max xs = Some m → m ∈ xs ∧ ∀ x, x ∈ xs → x ≤ m.
Proof.
  revert m. induction xs as [|x xs IH]; intros m; [done|].
  simpl. intros [= <-]. destruct (sql_max xs) as [m'|] eqn:Hxs; simpl.
  - destruct (IH m' eq_refl) as [Hin Hmax]. split.
    + destruct (Z.max_spec x m') as [[_ ->]|[_ ->]]; [by right|by left].
    + intros y [->|Hy]%elem_of_cons; [lia|]. specialize (Hmax y Hy). lia.
  - destruct xs as [|x' xs]; [|done]. split; [by left|].
    intros y [->|Hy]%elem_of_cons; [lia|]. by apply elem_of_nil in Hy.
Qed.
End store_facts.

(** * Properties of the batch *)

Section batch_facts.

Lemma rows_from_cons (f i0 : Z) (x : string) (lines : list string) :
  rows_from f i0 (x :: lines)
  = LibRow f i0 (Some x) :: rows_from f (i0 + 1) lines.
Proof. reflexivity. Qed.

Lemma filter_rows_same (f i0 : Z) (lines : list string) :
  filter (λ r, frame_id r = f) (rows_from f i0 lines) = rows_from f i0 lines.
Proof.
  revert i0. induction lines as [|x lines IH]; intros i0; [done|].
  rewrite rows_from_cons, filter_cons_True by done. f_equal. apply IH.
Qed.

Lemma filter_rows_other (f f' i0 : Z) (lines : list string) :
  f' ≠ f → filter (λ r, frame_id r = f) (rows_from f' i0 lines) = [].
Proof.
  intros Hne. revert i0. induction lines as [|x lines IH]; intros i0; [done|].
  rewrite rows_from_cons, filter_cons_False by done. apply IH.
Qed.

Lemma line_no_rows (f i0 : Z) (lines : list string) :
  line_no <$> rows_from f i0 lines = seqZ i0 (Z.of_nat (length lines)).
Proof.
  revert i0. induction lines as [|x lines IH]; intros i0.
  - by rewrite seqZ_nil.
  - rewrite rows_from_cons, fmap_cons, IH. simpl length.
    rewrite (seqZ_cons i0) by lia. simpl. do 2 f_equal; lia.
Qed.

Lemma find_rows_other (f f' ln i0 : Z) (lines : list string) :
  f' ≠ f → find (matches f ln) (rows_from f' i0 lines) = None.
Proof.
  intros Hne. revert i0. induction lines as [|x lines IH]; intros i0; [done|].
  rewrite rows_from_cons. simpl. unfold matches at 1. simpl.
  rewrite bool_decide_eq_false_2 by done. apply IH.
Qed.

Lemma find_rows_same (f i0 : Z) (lines : list string) (i : nat) (line : string) :
  lines !! i = Some line →
  find (matches f (i0 + Z.of_nat i)) (rows_from f i0 lines)
  = Some (LibRow f (i0 + Z.of_nat i) (Some line)).
Proof.
  revert i0 i. induction lines as [|x lines IH]; intros i0 i Hi; [done|].
  rewrite rows_from_cons. simpl. unfold matches at 1. simpl.
  rewrite bool_decide_eq_true_2 by done. simpl.
  destruct i as [|i]; simpl in Hi.
  - injection Hi as ->. rewrite bool_decide_eq_true_2 by lia.
    do 2 f_equal. lia.
  - rewrite bool_decide_eq_false_2 by lia.
    replace (i0 + Z.of_nat (S i)) with ((i0 + 1) + Z.of_nat i) by lia.
    by apply IH.
Qed.

Lemma subquery_batch_of (f0 : Z) (frames : list (list string)) (k i : nat)
    (lines : list string) (line : string) :
  frames !! k = Some lines → lines !! i = Some line →
  subquery (batch_of f0 frames) (f0 + Z.of_nat k) (Z.of_nat i) = Some line.
Proof.
  intros Hk Hi. unfold subquery.
  revert f0 k Hk. induction frames as [|l frames IH]; intros f0 k Hk; [done|].
  simpl. rewrite find_app. destruct k as [|k]; simpl in Hk.
  - injection Hk as ->. rewrite Z.add_0_r.
    pose proof (find_rows_same f0 0 lines i line Hi) as Hfind.
    rewrite Z.add_0_l in Hfind.
    change (frame_rows f0 lines) with (rows_from f0 0 lines).
    by rewrite Hfind.
  - pose proof (find_rows_other (f0 + Z.of_nat (S k)) f0 (Z.of_nat i) 0 l) as Hnone.
    change (frame_rows f0 l) with (rows_from f0 0 l).
    rewrite Hnone by lia.
    replace (f0 + Z.of_nat (S k)) with ((f0 + 1) + Z.of_nat k) by lia.
    by apply IH.
Qed.

Lemma stored_batch_of (f f0 H : Z) (frames : list (list string)) :
  Forall (λ lines, Z.of_nat (length lines) = H) frames →
  line_no <$> filter (λ r, frame_id r = f) (batch_of f0 frames)
  = if bool_decide (f0 ≤ f < f0 + Z.of_nat (length frames)) then range H else [].
Proof.
  intros Hall. revert f0.
  induction Hall as [|lines frames Hlen Hall IH]; intros f0.
  { simpl. by rewrite bool_decide_eq_false_2 by lia. }
  simpl batch_of. rewrite filter_app, fmap_app, IH.
  change (frame_rows f0 lines) with (rows_from f0 0 lines).
  destruct (decide (f0 = f)) as [->|Hne].
  - rewrite filter_rows_same, line_no_rows, Hlen.
    rewrite bool_decide_eq_false_2 by lia.
    rewrite bool_decide_eq_true_2 by (simpl length; lia).
    by rewrite app_nil_r.
  - rewrite filter_rows_other by done. simpl.
    by rewrite (bool_decide_ext (f0 + 1 ≤ f < f0 + 1 + Z.of_nat (length frames))
                  (f0 ≤ f < f0 + Z.of_nat (length (lines :: frames))))
      by (simpl length; lia).
Qed.
End batch_facts.

(** * Properties of ingestion *)

Section ingest_facts.
Variable raw_frame : Type.
Variable resize : raw_frame → Z → Z → result (list (list pixel)).
Variable bgr2gray : pixel → byte.
Variable get_stream_url : string → string.
Variable video_capture : string → option (list raw_frame).
Variable terminal_size : Z * Z.
Variable frame_budget : string → Z → Z → Z.

(** What [cv2.resize] promises: a frame of [h] rows. *)
Hypothesis resize_rows : ∀ frame w h resized,
  resize frame w h = Ok resized → length resized = Z.to_nat h.

Abbreviation frame_to_ansi := (frame_to_ansi raw_frame resize bgr2gray).
Abbreviation ingest_loop := (ingest_loop raw_frame resize bgr2gray).
Abbreviation ingest := (ingest raw_frame resize bgr2gray get_stream_url
                      video_capture terminal_size frame_budget).

Lemma mapM_Ok_Forall2 {A B} (f : A → result B) (l : list A) (k : list B) :
  mapM f l = Ok k ↔ Forall2 (λ x y, f x = Ok y) l k.
Proof.
  revert k. induction l as [|x l IH]; intros k; simpl.
  - unfold mret, result_ret.
    split; [intros [= <-]; constructor|by inversion 1].
  - destruct (f x) as [y|e] eqn:Hx; simpl.
    + destruct (mapM f l) as [k'|e] eqn:Hl; simpl; unfold mret, result_ret.
      * split.
        -- intros [= <-]. constructor; [done|]. by apply IH.
        -- inversion 1 as [|? y' ? k'' Hy Hk]; subst.
           apply IH in Hk. congruence.
      * split; [done|]. inversion 1 as [|? y' ? k'' Hy Hk]; subst.
        apply IH in Hk. congruence.
    + split; [done|]. inversion 1; congruence.
Qed.

Lemma frame_to_ansi_length chars w h frame uc lines :
  frame_to_ansi chars (Some w) (Some h) frame uc = Ok lines →
  length lines = Z.to_nat h.
Proof.
  unfold Encoder.frame_to_ansi.
  destruct (resize frame w h) as [resized|e] eqn:Hr; simpl; [|done].
  intros Hm. apply mapM_Ok_Forall2, Forall2_length in Hm.
  rewrite <-Hm. by eapply resize_rows.
Qed.

Lemma ingest_loop_spec eng uc max_frames stream frame_id batch :
  ingest_loop eng uc max_frames stream frame_id batch
  = (frames ← mapM (λ frame, frame_to_ansi (chars eng) (display_w eng)
                               (display_h eng) frame uc)
                   (take (Z.to_nat (max_frames - frame_id)) stream);
     Ok (frame_id + Z.of_nat (length frames),
         batch ++ batch_of frame_id frames)).
Proof.
  revert frame_id batch.
  induction stream as [|frame rest IH]; intros frame_id batch; simpl.
  - rewrite take_nil. simpl. rewrite Z.add_0_r, app_nil_r.
    by case_bool_decide.
  - case_bool_decide as Hlt.
    + replace (Z.to_nat (max_frames - frame_id))
        with (S (Z.to_nat (max_frames - (frame_id + 1)))) by lia.
      simpl. destruct (frame_to_ansi _ _ _ frame uc) as [lines|e]; simpl; [|done].
      rewrite IH.
      destruct (mapM _ _) as [frames|e]; simpl; [|done].
      rewrite <-app_assoc. do 2 f_equal. lia.
    + replace (Z.to_nat (max_frames - frame_id)) with 0%nat by lia.
      simpl. by rewrite Z.add_0_r, app_nil_r.
Qed.

Lemma range_to_nat (h : Z) : range (Z.of_nat (Z.to_nat h)) = range h.
Proof. unfold range, seqZ. by rewrite Nat2Z.id. Qed.

Lemma ingest_inv eng src dur fps uc eng' :
  ingest eng (Some src) dur fps uc = Ok (eng', true) →
  ∃ stream frames,
    video_capture (video_source get_stream_url src) = Some stream
    ∧ Forall2 (λ frame lines,
                 frame_to_ansi (chars eng') (display_w eng') (display_h eng')
                   frame uc = Ok lines)
        (take (Z.to_nat (frame_budget (video_source get_stream_url src) dur fps))
              stream)
        frames
    ∧ display_h eng' = Some (py_or (display_h eng) (terminal_size.2 - 3))
    ∧ frame_library (conn eng') = batch_of 0 frames
    ∧ ∀ ln, display (conn eng') !! ln
            = if bool_decide (0 ≤ ln < py_or (display_h eng) (terminal_size.2 - 3))
              then Some (Some "") else None.
Proof.
  unfold Engine.ingest.
  destruct (video_capture _) as [stream|] eqn:Hcap; [|done].
  rewrite ingest_loop_spec. simpl. rewrite Z.sub_0_r.
  destruct (mapM _ _) as [frames|e] eqn:Hm; simpl; [|done].
  set (h := py_or (display_h eng) (terminal_size.2 - 3)).
  destruct (insert_display_many_fresh (range h)
              (insert_frames (batch_of 0 frames) (_prepare_tables (conn eng))))
    as (d' & Hd' & Hlib & Hdisp).
  { apply NoDup_seqZ. }
  { intros k _. apply lookup_empty. }
  rewrite Hd'. simpl. intros [= <-]. exists stream, frames. simpl.
  split; [done|]. split; [by apply mapM_Ok_Forall2|]. split; [done|].
  split; [done|]. intros ln. rewrite Hdisp. simpl. rewrite lookup_empty.
  apply (f_equal (λ b : bool, if b then _ else _)).
  apply bool_decide_ext. unfold range. rewrite elem_of_seqZ. lia.
Qed.

Lemma mirror_keys (d : db) (h : Z) (cell : Z → option string) :
  (∀ ln, display d !! ln = if bool_decide (0 ≤ ln < h) then Some (cell ln) else None) →
  read_current d = cell <$> range h.
Proof.
  intros Hdisp. rewrite (read_current_keys d (range h)).
  - apply list_fmap_ext. intros i ln Hln. apply list_elem_of_lookup_2 in Hln.
    unfold range in Hln. rewrite elem_of_seqZ in Hln.
    rewrite Hdisp. by rewrite bool_decide_eq_true_2 by lia.
  - apply Sorted_range.
  - apply NoDup_seqZ.
  - intros ln. unfold range. rewrite elem_of_seqZ, Hdisp.
    case_bool_decide as Hr.
    + split; [intros _; done|intros _; lia].
    + split; [intros; lia|intros His; by apply is_Some_None in His].
Qed.

(** C1: after an ingestion that completed, synchronising the mirror to
    the [k]-th frame read from the source and reading the mirror returns
    the lines [frame_to_ansi] gave for that frame, in their order. *)
Theorem C1_sync_then_read_returns_frame eng src dur fps uc eng' stream
    (k : nat) frame :
  ingest eng (Some src) dur fps uc = Ok (eng', true) →
  video_capture (video_source get_stream_url src) = Some stream →
  stream !! k = Some frame →
  Z.of_nat k < frame_budget (video_source get_stream_url src) dur fps →
  ∃ lines,
    frame_to_ansi (chars eng') (display_w eng') (display_h eng') frame uc
    = Ok lines
    ∧ read_current (sync_frame (Z.of_nat k) (conn eng')) = Some <$> lines.
Proof.
  intros Hing Hcap Hk Hbudget.
  destruct (ingest_inv _ _ _ _ _ _ Hing)
    as (stream' & frames & Hcap' & Hall & Hh & Hlib & Hdisp).
  rewrite Hcap in Hcap'. injection Hcap' as <-.
  set (h := py_or (display_h eng) (terminal_size.2 - 3)) in *.
  assert (take (Z.to_nat (frame_budget (video_source get_stream_url src) dur fps))
               stream !! k = Some frame) as Hk'
    by (rewrite lookup_take_lt by lia; done).
  destruct (Forall2_lookup_l _ _ _ _ _ Hall Hk') as (lines & Hlines & Henc).
  exists lines. split; [done|].
  assert (length lines = Z.to_nat h) as Hlen.
  { rewrite Hh in Henc. destruct (display_w eng') as [w|] eqn:Hw.
    - by eapply frame_to_ansi_length.
    - done. }
  rewrite (mirror_keys _ h (λ ln, subquery (frame_library (conn eng'))
                                    (Z.of_nat k) ln)).
  - apply list_eq. intros i. unfold range.
    rewrite !list_lookup_fmap.
    destruct (lines !! i) as [line|] eqn:Hi; simpl.
    + rewrite lookup_seqZ_lt by (apply lookup_lt_Some in Hi; lia). simpl.
      rewrite Hlib. f_equal.
      apply (subquery_batch_of 0 frames k i lines line Hlines Hi).
    + rewrite lookup_seqZ_ge; [done|]. apply lookup_ge_None in Hi. lia.
  - intros ln. rewrite sync_frame_lookup, Hdisp. by case_bool_decide.
Qed.

Lemma encoded_heights chars w h uc (stream : list raw_frame)
    (frames : list (list string)) :
  Forall2 (λ frame lines, frame_to_ansi chars w (Some h) frame uc = Ok lines)
          stream frames →
  Forall (λ lines, Z.of_nat (length lines) = Z.of_nat (Z.to_nat h)) frames.
Proof.
  intros Hall. eapply Forall2_Forall_r; [exact Hall|]. apply Forall_forall.
  intros frame _ lines Henc. destruct w as [w|]; [|done].
  f_equal. by eapply frame_to_ansi_length.
Qed.

(** C2: after an ingestion that completed, the frames in the archive are
    those numbered 0, 1, ... up to the number of frames read, and the
    lines stored for each are 0, ..., H-1, once each, where H is the
    display height. *)
Theorem C2_archive_lines_complete eng src dur fps uc eng' stream :
  ingest eng (Some src) dur fps uc = Ok (eng', true) →
  video_capture (video_source get_stream_url src) = Some stream →
  ∃ h, display_h eng' = Some h
    ∧ ∀ f, stored_line_nos f (conn eng')
           = if bool_decide
                  (0 ≤ f < Z.min (Z.of_nat (length stream))
                                 (frame_budget (video_source get_stream_url src)
                                               dur fps))
             then range h else [].
Proof.
  intros Hing Hcap.
  destruct (ingest_inv _ _ _ _ _ _ Hing)
    as (stream' & frames & Hcap' & Hall & Hh & Hlib & Hdisp).
  rewrite Hcap in Hcap'. injection Hcap' as <-.
  set (h := py_or (display_h eng) (terminal_size.2 - 3)) in *.
  exists h. split; [done|]. intros f. unfold stored_line_nos. rewrite Hlib.
  rewrite Hh in Hall.
  rewrite (stored_batch_of f 0 _ _ (encoded_heights _ _ _ _ _ _ Hall)).
  rewrite range_to_nat.
  apply (f_equal (λ b : bool, if b then _ else _)).
  apply bool_decide_ext. apply Forall2_length in Hall.
  rewrite length_take in Hall. lia.
Qed.

(** C4: the tables are created anew, whatever the database held, and a
    completed ingestion leaves in the mirror exactly the rows numbered
    0, ..., H-1, each with the empty string. *)
Theorem C4_reset_recreates_and_blanks eng src dur fps uc eng' :
  ingest eng (Some src) dur fps uc = Ok (eng', true) →
  (∀ d, _prepare_tables d = Db [] ∅)
  ∧ (∀ d, ingest (with_conn eng d) (Some src) dur fps uc = Ok (eng', true))
  ∧ (∀ ln, display (conn eng') !! ln
           = if bool_decide (0 ≤ ln < py_or (display_h eng) (terminal_size.2 - 3))
             then Some (Some "") else None)
  ∧ size (display (conn eng'))
    = Z.to_nat (py_or (display_h eng) (terminal_size.2 - 3))
  ∧ read_current (conn eng')
    = replicate (Z.to_nat (py_or (display_h eng) (terminal_size.2 - 3)))
                (Some "").
Proof.
  intros Hing.
  destruct (ingest_inv _ _ _ _ _ _ Hing)
    as (stream' & frames & Hcap' & Hall & Hh & Hlib & Hdisp).
  set (h := py_or (display_h eng) (terminal_size.2 - 3)) in *.
  assert (read_current (conn eng') = replicate (Z.to_nat h) (Some "")) as Hread.
  { rewrite (mirror_keys _ h (λ _, Some "")) by done.
    unfold range. rewrite (const_fmap _ (seqZ 0 h) (Some "")) by done.
    by rewrite length_seqZ. }
  split; [done|]. split; [intros d; exact Hing|]. split; [done|].
  split; [|done].
  by rewrite <-read_current_length, Hread, length_replicate.
Qed.

Lemma elem_frame_id_filter (lib : list lib_row) (f : Z) :
  f ∈ frame_id <$> lib ↔ filter (λ r, frame_id r = f) lib ≠ [].
Proof.
  rewrite list_elem_of_fmap. split.
  - intros (r & -> & Hr) Hnil.
    assert (r ∈ filter (λ r', frame_id r' = frame_id r) lib) as Hin
      by (by apply list_elem_of_filter).
    rewrite Hnil in Hin. by apply elem_of_nil in Hin.
  - destruct (filter _ lib) as [|r rest] eqn:Hfil; [done|]. intros _.
    assert (r ∈ filter (λ r', frame_id r' = f) lib) as Hin
      by (rewrite Hfil; left).
    apply list_elem_of_filter in Hin as [Hr Hin]. by exists r.
Qed.

(** An ingestion that read at least one frame, on a display of at least
    one line, leaves an archive that [play] can show to its end. *)
Lemma ingest_playable eng src dur fps uc eng' stream :
  ingest eng (Some src) dur fps uc = Ok (eng', true) →
  video_capture (video_source get_stream_url src) = Some stream →
  0 < py_or (display_h eng) (terminal_size.2 - 3) →
  0 < Z.min (Z.of_nat (length stream))
            (frame_budget (video_source get_stream_url src) dur fps) →
  max_frame_id (conn eng')
  = Some (Z.min (Z.of_nat (length stream))
                (frame_budget (video_source get_stream_url src) dur fps) - 1)
  ∧ playable (conn eng')
      (Z.min (Z.of_nat (length stream))
             (frame_budget (video_source get_stream_url src) dur fps) - 1)
    = true.
Proof.
  intros Hing Hcap Hh Hn.
  destruct (ingest_inv _ _ _ _ _ _ Hing)
    as (stream' & frames & Hcap' & Hall & Hh' & Hlib & Hdisp).
  rewrite Hcap in Hcap'. injection Hcap' as <-.
  set (h := py_or (display_h eng) (terminal_size.2 - 3)) in *.
  set (n := Z.min _ _) in *.
  assert (Z.of_nat (length frames) = n) as Hlen.
  { apply Forall2_length in Hall. rewrite length_take in Hall. lia. }
  assert (∀ f, f ∈ frame_id <$> frame_library (conn eng') ↔ 0 ≤ f < n) as Hids.
  { intros f. rewrite elem_frame_id_filter, Hlib.
    pose proof Hall as Hheights. rewrite Hh' in Hheights.
    apply encoded_heights in Hheights.
    pose proof (stored_batch_of f 0 _ _ Hheights) as Hstored.
    rewrite range_to_nat in Hstored.
    case_bool_decide as Hf; split; intros Hx; try lia.
    - intros Hnil. rewrite Hnil in Hstored. unfold range in Hstored.
      rewrite seqZ_cons in Hstored by lia. done.
    - apply fmap_nil_inv in Hstored. done. }
  split.
  - unfold max_frame_id.
    destruct (sql_max (frame_id <$> frame_library (conn eng'))) as [m|] eqn:Hm.
    + apply sql_max_Some in Hm as [Hin Hmax]. apply Hids in Hin.
      assert (n - 1 ≤ m) by (apply Hmax, Hids; lia). f_equal. lia.
    + assert (0 ∈ frame_id <$> frame_library (conn eng')) as H0
        by (apply Hids; lia).
      destruct (frame_id <$> frame_library (conn eng')); [|done].
      by apply elem_of_nil in H0.
  - unfold playable. apply forallb_forall. intros f Hf.
    apply list_elem_of_In in Hf. unfold range in Hf.
    rewrite elem_of_seqZ in Hf.
    apply forallb_forall. intros ln Hln.
    apply list_elem_of_In, list_elem_of_fmap in Hln as ([ln' c] & -> & Hln).
    apply elem_of_map_to_list in Hln. simpl. rewrite Hdisp in Hln.
    case_bool_decide as Hr; [|done]. clear Hln.
    destruct (lookup_lt_is_Some_2 frames (Z.to_nat f)) as [lines Hlines]; [lia|].
    assert (length lines = Z.to_nat h) as Hll.
    { pose proof (Forall2_lookup_r _ _ _ _ _ Hall Hlines) as (frame & _ & Henc).
      rewrite Hh' in Henc. destruct (display_w eng'); [|done].
      by eapply frame_to_ansi_length. }
    destruct (lookup_lt_is_Some_2 lines (Z.to_nat ln')) as [line Hline]; [lia|].
    pose proof (subquery_batch_of 0 frames _ _ _ _ Hlines Hline) as Hsub.
    rewrite !Z2Nat.id, Z.add_0_l in Hsub by lia.
    apply bool_decide_eq_true_2. rewrite Hlib, Hsub. done.
Qed.
End ingest_facts.

(** * Properties of playback *)

Section play_facts.

Lemma max_frame_id_None (d : db) :
  max_frame_id d = None ↔ frame_library d = [].
Proof.
  unfold max_frame_id. destruct (frame_library d) as [|r lib]; simpl; [done|].
  split; discriminate.
Qed.

Lemma join_lines_Ok (contents : list (option string)) :
  Forall is_Some contents → ∃ output, join_lines contents = Ok output.
Proof.
  induction 1 as [|c contents [s ->] _ [tl IH]]; [by exists ""|].
  destruct contents as [|c' contents]; [by exists s|].
  exists (s +:+ String "010"%char tl).
  change (join_lines (Some s :: c' :: contents))
    with (tl ← join_lines (c' :: contents); Ok (s +:+ String "010"%char tl)).
  by rewrite IH.
Qed.

Lemma playable_join (d : db) (total f : Z) :
  playable d total = true → 0 ≤ f ≤ total →
  ∃ output, join_lines (read_current (sync_frame f d)) = Ok output.
Proof.
  intros Hplay Hf. apply join_lines_Ok. apply Forall_forall. intros c Hc.
  unfold read_current in Hc.
  apply list_elem_of_fmap in Hc as ([ln c'] & -> & Hin). simpl.
  rewrite merge_sort_Permutation in Hin. apply elem_of_map_to_list in Hin.
  rewrite sync_frame_lookup in Hin.
  destruct (display d !! ln) as [c0|] eqn:Hln; [|done].
  simpl in Hin. injection Hin as <-.
  unfold playable in Hplay. rewrite forallb_forall in Hplay.
  specialize (Hplay f). rewrite forallb_forall in Hplay.
  eapply bool_decide_eq_true_1, Hplay.
  - apply list_elem_of_In. unfold range. rewrite elem_of_seqZ. lia.
  - apply list_elem_of_In, list_elem_of_fmap. exists (ln, c0).
    split; [done|]. by apply elem_of_map_to_list.
Qed.

Lemma play_loop_frames (fps total : Z) (ids : list Z) (d : db)
    (shown : list tick) :
  fps ≠ 0 →
  (∀ f, f ∈ ids → ∃ output, join_lines (read_current (sync_frame f d)) = Ok output) →
  ending (play_loop fps total ids d shown) = Returned
  ∧ tick_frame <$> ticks (play_loop fps total ids d shown)
    = (tick_frame <$> shown) ++ ids.
Proof.
  intros Hfps. revert d shown.
  induction ids as [|f ids IH]; intros d shown Hjoin; simpl.
  { by rewrite app_nil_r. }
  destruct (Hjoin f) as [output ->]; [by left|].
  rewrite bool_decide_eq_false_2 by done.
  destruct (IH (sync_frame f d)
              (shown ++ [Tick f total output
                 ((f + 1) * Z.of_nat (length (read_current (sync_frame f d))))]))
    as [-> ->].
  { intros g Hg. rewrite sync_frame_sync. apply Hjoin. by right. }
  split; [done|]. by rewrite fmap_app, <-app_assoc.
Qed.

Lemma play_loop_not_exited (fps total : Z) (ids : list Z) (d : db)
    (shown : list tick) (code : Z) :
  ending (play_loop fps total ids d shown) ≠ Exited code.
Proof.
  revert d shown. induction ids as [|f ids IH]; intros d shown; simpl; [done|].
  destruct (join_lines _); [|done]. case_bool_decide; [done|]. apply IH.
Qed.

Lemma play_not_exited (eng : engine) (fps code : Z) :
  ending (play eng fps) ≠ Exited code.
Proof.
  unfold play. destruct (max_frame_id _); [|done]. apply play_loop_not_exited.
Qed.

Lemma play_covers (eng : engine) (fps total : Z) :
  max_frame_id (conn eng) = Some total →
  fps ≠ 0 →
  playable (conn eng) total = true →
  tick_frame <$> ticks (play eng fps) = seqZ 0 (total + 1)
  ∧ ending (play eng fps) = Returned.
Proof.
  intros Hmax Hfps Hplay. unfold play. rewrite Hmax.
  destruct (play_loop_frames fps total (range (total + 1)) (conn eng) [] Hfps)
    as [-> ->]; [|done].
  intros f Hf. unfold range in Hf. rewrite elem_of_seqZ in Hf.
  apply (playable_join _ total); [done|lia].
Qed.

(** C6: [max_frame_id] is [None] exactly on an empty archive and otherwise
    the largest frame number in it; when every frame up to it has its
    lines and the rate is not zero, [play] puts on the terminal the frames
    0, 1, ..., [total], once each in this order, and then returns. *)
Theorem C6_playback_covers_all_frames (eng : engine) (fps total : Z) :
  max_frame_id (conn eng) = Some total →
  fps ≠ 0 →
  playable (conn eng) total = true →
  (∀ d, max_frame_id d = None ↔ frame_library d = [])
  ∧ total ∈ frame_id <$> frame_library (conn eng)
  ∧ (∀ f, f ∈ frame_id <$> frame_library (conn eng) → f ≤ total)
  ∧ tick_frame <$> ticks (play eng fps) = seqZ 0 (total + 1)
  ∧ ending (play eng fps) = Returned.
Proof.
  intros Hmax Hfps Hplay.
  split; [apply max_frame_id_None|].
  destruct (sql_max_Some _ _ Hmax) as [Hin Hle].
  split; [done|]. split; [done|]. by apply play_covers.
Qed.

(** C10: on an empty archive [play] raises [TypeError] before it
    synchronises or shows anything. *)
Theorem C10_play_empty_archive_raises (eng : engine) (fps : Z) :
  frame_library (conn eng) = [] →
  play eng fps = Played (conn eng) [] (Raised TypeError).
Proof.
  intros Hempty. unfold play.
  by rewrite (proj2 (max_frame_id_None (conn eng)) Hempty).
Qed.
End play_facts.

(** * Ingestion followed by playback *)

Section run_facts.
Variable raw_frame : Type.
Variable resize : raw_frame → Z → Z → result (list (list pixel)).
Variable bgr2gray : pixel → byte.
Variable get_stream_url : string → string.
Variable video_capture : string → option (list raw_frame).
Variable terminal_size : Z * Z.
Variable frame_budget : string → Z → Z → Z.

Hypothesis resize_rows : ∀ frame w h resized,
  resize frame w h = Ok resized → length resized = Z.to_nat h.

(** Every frame that a completed ingestion read is shown, in order, by the
    playback that follows it. *)
Corollary ingest_then_play eng src dur fps uc eng' stream :
  ingest raw_frame resize bgr2gray get_stream_url video_capture terminal_size
    frame_budget eng (Some src) dur fps uc = Ok (eng', true) →
  video_capture (video_source get_stream_url src) = Some stream →
  0 < py_or (display_h eng) (terminal_size.2 - 3) →
  0 < Z.min (Z.of_nat (length stream))
            (frame_budget (video_source get_stream_url src) dur fps) →
  fps ≠ 0 →
  tick_frame <$> ticks (play eng' fps)
  = range (Z.min (Z.of_nat (length stream))
                 (frame_budget (video_source get_stream_url src) dur fps))
  ∧ ending (play eng' fps) = Returned.
Proof.
  intros Hing Hcap Hh Hn Hfps.
  destruct (ingest_playable _ _ _ _ _ _ _ resize_rows _ _ _ _ _ _ _
              Hing Hcap Hh Hn) as [Hmax Hplay].
  destruct (play_covers _ fps _ Hmax Hfps Hplay) as [-> ->].
  split; [|done]. unfold range. f_equal. lia.
Qed.
End run_facts.

(** * Properties of the command line *)

Section main_facts.
Variable raw_frame : Type.
Variable resize : raw_frame → Z → Z → result (list (list pixel)).
Variable bgr2gray : pixel → byte.
Variable get_stream_url : string → string.
Variable video_capture : string → option (list raw_frame).
Variable terminal_size : Z * Z.
Variable frame_budget : string → Z → Z → Z.
Variable path_exists : string → bool.
Variable disk_db : string → db.

Abbreviation main := (main raw_frame resize bgr2gray get_stream_url
                        video_capture terminal_size frame_budget
                        path_exists disk_db).

Lemma main_status_zero (a : args) :
  exit_status (main a).2 = 0 ↔ (main a).2 = Returned.
Proof.
  split; [|by intros ->].
  unfold Engine.main. destruct (nonempty (play_db a)) as [path|].
  - destruct (path_exists path); simpl; [|done].
    destruct (ending (play _ _)) as [|e|code] eqn:He; simpl; [done|done|].
    by apply play_not_exited in He.
  - destruct (ingest _ _ _ _ _ _ _ _ _ _ _ _) as [[eng' [|]]|e]; simpl; [|done..].
    destruct (ending (play _ _)) as [|e|code] eqn:He; simpl; [done|done|].
    by apply play_not_exited in He.
Qed.

(** C8: when [--play-db] names a path that does not exist, [main] prints
    the error and exits with status 1 without opening any database or
    showing any frame; status 0 is the status of a run that returns. *)
Theorem C8_missing_store_exits_early (a : args) (path : string) :
  nonempty (play_db a) = Some path →
  path_exists path = false →
  main a = ([Printed ("Error: Database file " +:+ path +:+ " not found.")],
            Exited 1)
  ∧ exit_status (main a).2 = 1
  ∧ (∀ p, Connected p ∉ (main a).1)
  ∧ (∀ t, Rendered t ∉ (main a).1)
  ∧ (∀ a', exit_status (main a').2 = 0 ↔ (main a').2 = Returned).
Proof.
  intros Hmode Hmissing.
  assert (main a = ([Printed ("Error: Database file " +:+ path +:+ " not found.")],
                    Exited 1)) as Hrun.
  { unfold Engine.main. by rewrite Hmode, Hmissing. }
  rewrite Hrun. simpl. split; [done|]. split; [done|].
  split; [intros p [=]%list_elem_of_singleton|].
  split; [intros t [=]%list_elem_of_singleton|].
  apply main_status_zero.
Qed.
End main_facts.

(** * The theorems on the two-frame clip *)

Section clip_examples.
Import Clip.

Lemma solid_resize_rows (p : pixel) (w h : Z) (resized : list (list pixel)) :
  solid_resize p w h = Ok resized → length resized = Z.to_nat h.
Proof.
  unfold solid_resize. case_bool_decide; [|done].
  intros [= <-]. apply length_replicate.
Qed.

(** The whole run on the clip: one connection, frame 0, frame 1, return. *)
Example clip_end_to_end :
  main pixel solid_resize gray_level stream_url capture terminal budget
       no_path no_db (Args (Some "clip.mp4") None 1 10 false None)
  = ([Connected ":memory:";
      Rendered (Tick 0 1 ("@@" +:+ String "010"%char "@@") 2);
      Rendered (Tick 1 1 ("::" +:+ String "010"%char "::") 4)],
     Returned).
Proof. vm_compute. reflexivity. Qed.

Lemma C1_clip :
  ∃ lines,
    frame_to_ansi pixel solid_resize gray_level (chars ingested)
      (display_w ingested) (display_h ingested) white false = Ok lines
    ∧ read_current (sync_frame 1 (conn ingested)) = Some <$> lines.
Proof.
  apply (C1_sync_then_read_returns_frame pixel solid_resize gray_level
           stream_url capture terminal budget solid_resize_rows
           fresh "clip.mp4" 1 10 false ingested [black; white] 1 white).
  - vm_compute. reflexivity.
  - reflexivity.
  - reflexivity.
  - vm_compute. reflexivity.
Defined.

Lemma C2_clip :
  ∃ h, display_h ingested = Some h
    ∧ ∀ f, stored_line_nos f (conn ingested)
           = if bool_decide
                  (0 ≤ f < Z.min (Z.of_nat (length [black; white]))
                                 (budget (video_source stream_url "clip.mp4") 1 10))
             then range h else [].
Proof.
  apply (C2_archive_lines_complete pixel solid_resize gray_level
           stream_url capture terminal budget solid_resize_rows
           fresh "clip.mp4" 1 10 false ingested [black; white]).
  - vm_compute. reflexivity.
  - reflexivity.
Defined.

Lemma C4_clip :
  (∀ d, _prepare_tables d = Db [] ∅)
  ∧ (∀ d, ingest_clip (with_conn fresh d) false = Ok (ingested, true))
  ∧ (∀ ln, display (conn ingested) !! ln
           = if bool_decide (0 ≤ ln < py_or (display_h fresh) (terminal.2 - 3))
             then Some (Some "") else None)
  ∧ size (display (conn ingested))
    = Z.to_nat (py_or (display_h fresh) (terminal.2 - 3))
  ∧ read_current (conn ingested)
    = replicate (Z.to_nat (py_or (display_h fresh) (terminal.2 - 3))) (Some "").
Proof.
  apply (C4_reset_recreates_and_blanks pixel solid_resize gray_level
           stream_url capture terminal budget
           fresh "clip.mp4" 1 10 false ingested).
  vm_compute. reflexivity.
Defined.

Lemma C6_clip :
  (∀ d, max_frame_id d = None ↔ frame_library d = [])
  ∧ 1 ∈ frame_id <$> frame_library (conn ingested)
  ∧ (∀ f, f ∈ frame_id <$> frame_library (conn ingested) → f ≤ 1)
  ∧ tick_frame <$> ticks (play ingested 10) = seqZ 0 (1 + 1)
  ∧ ending (play ingested 10) = Returned.
Proof.
  apply (C6_playback_covers_all_frames ingested 10 1).
  - vm_compute. reflexivity.
  - lia.
  - vm_compute. reflexivity.
Defined.

Lemma C8_clip :
  main pixel solid_resize gray_level stream_url capture terminal budget
       no_path no_db replay_lost
  = ([Printed ("Error: Database file " +:+ "lost.db" +:+ " not found.")],
     Exited 1)
  ∧ exit_status
      (main pixel solid_resize gray_level stream_url capture terminal budget
            no_path no_db replay_lost).2 = 1
  ∧ (∀ p, Connected p ∉
            (main pixel solid_resize gray_level stream_url capture terminal
                  budget no_path no_db replay_lost).1)
  ∧ (∀ t, Rendered t ∉
            (main pixel solid_resize gray_level stream_url capture terminal
                  budget no_path no_db replay_lost).1)
  ∧ (∀ a', exit_status
             (main pixel solid_resize gray_level stream_url capture terminal
                   budget no_path no_db a').2 = 0
           ↔ (main pixel solid_resize gray_level stream_url capture terminal
                    budget no_path no_db a').2 = Returned).
Proof.
  apply (C8_missing_store_exits_early pixel solid_resize gray_level
           stream_url capture terminal budget no_path no_db
           replay_lost "lost.db").
  - reflexivity.
  - reflexivity.
Defined.

Lemma C9_clip :
  display (sync_frame 7 (conn ingested)) = (λ _, None) <$> display (conn ingested)
  ∧ dom (display (sync_frame 7 (conn ingested))) = dom (display (conn ingested))
  ∧ size (display (sync_frame 7 (conn ingested))) = size (display (conn ingested))
  ∧ read_current (sync_frame 7 (conn ingested))
    = replicate (size (display (conn ingested))) None.
Proof.
  apply (C9_sync_absent_frame_nulls 7 (conn ingested)).
  apply (bool_decide_unpack _). vm_compute. exact I.
Defined.

Lemma C10_clip : play fresh 10 = Played (conn fresh) [] (Raised TypeError).
Proof.
  apply (C10_play_empty_archive_raises fresh 10). reflexivity.
Defined.
End clip_examples.

(** * More on the encoder *)

Section encoder_more.

Lemma string_app_assoc (s t u : string) : (s +:+ t) +:+ u = s +:+ (t +:+ u).
Proof.
  induction s as [|c s IH]; [done|].
  change (String c ((s +:+ t) +:+ u) = String c (s +:+ (t +:+ u))).
  by rewrite IH.
Qed.

Lemma string_get_None (s : string) (n : nat) :
  String.get n s = None ↔ (String.length s ≤ n)%nat.
Proof.
  revert n. induction s as [|c s IH]; intros n; simpl.
  - split; [lia|done].
  - destruct n as [|n]; [split; [done|lia]|]. rewrite IH. lia.
Qed.

Lemma mapM_cons_Ok {A B} (f : A → result B) (x : A) (l : list A) (y : B)
    (k : list B) :
  f x = Ok y → mapM f l = Ok k → mapM f (x :: l) = Ok (y :: k).
Proof. intros Hx Hl. simpl. rewrite Hx. simpl. rewrite Hl. reflexivity. Qed.

Lemma glyph_Ok_length (chars : string) (p : byte) (g : string) :
  glyph chars p = Ok g → String.length g = 1%nat.
Proof. unfold glyph. destruct (String.get _ _); [|done]. by intros [= <-]. Qed.

Lemma glyph_line_length (chars : string) (gray : list byte) :
  (8 ≤ String.length chars)%nat →
  ∃ line, glyph_line chars gray = Ok line ∧ String.length line = length gray.
Proof.
  intros Hlen. unfold glyph_line.
  induction gray as [|p gray (line & Hline & Hl)]; [by exists ""|].
  destruct (String.get (N.to_nat (bucket p)) chars) as [c|] eqn:Hc.
  - assert (glyph chars p = Ok (String c "")) as Hg
      by (unfold glyph; by rewrite Hc).
    simpl. rewrite Hg. simpl.
    destruct (mapM (glyph chars) gray) as [gs|e]; [|done].
    simpl in *. injection Hline as <-.
    exists (String c (join_empty gs)). split; [reflexivity|]. simpl. by rewrite Hl.
  - apply string_get_None in Hc. pose proof (bucket_lt_8 p). lia.
Qed.

(** X1: with a ramp of at least 8 characters, glyph mode encodes every
    frame that [cv2.resize] returns: one line per row, and each line has
    exactly as many characters as its row has pixels. *)
Theorem X1_glyph_frame_shape (raw_frame : Type)
    (resize : raw_frame → Z → Z → result (list (list pixel)))
    (bgr2gray : pixel → byte) (chars : string) (w h : Z) (frame : raw_frame)
    (resized : list (list pixel)) :
  (8 ≤ String.length chars)%nat →
  resize frame w h = Ok resized →
  ∃ lines,
    frame_to_ansi raw_frame resize bgr2gray chars (Some w) (Some h) frame false
    = Ok lines
    ∧ Forall2 (λ row line, String.length line = length row) resized lines.
Proof.
  intros Hlen Hres. unfold frame_to_ansi. rewrite Hres.
  change (Ok resized ≫= mapM (encode_row bgr2gray chars false))
    with (mapM (encode_row bgr2gray chars false) resized).
  clear Hres. induction resized as [|row resized (lines & Hlines & Hall)].
  { exists []. split; [done|constructor]. }
  destruct (glyph_line_length chars (bgr2gray <$> row) Hlen) as (line & Hline & Hl).
  exists (line :: lines). split.
  - by apply mapM_cons_Ok.
  - constructor; [|done]. by rewrite Hl, length_fmap.
Qed.

(** X2: [glyph] fails exactly when the ramp has no character at the bucket
    of the luminance, and then with [IndexError]; a ramp of fewer than 8
    characters fails on luminance 255. *)
Theorem X2_glyph_index_error (chars : string) (p : byte) :
  (glyph chars p = Raise IndexError
   ↔ (String.length chars ≤ N.to_nat (bucket p))%nat)
  ∧ (∀ e, glyph chars p = Raise e → e = IndexError)
  ∧ (glyph chars xff = Raise IndexError ↔ (String.length chars < 8)%nat).
Proof.
  assert (∀ q, glyph chars q = Raise IndexError
               ↔ (String.length chars ≤ N.to_nat (bucket q))%nat) as Hiff.
  { intros q. rewrite <-string_get_None. unfold glyph.
    destruct (String.get _ _); split; done. }
  split; [apply Hiff|]. split.
  - intros e. unfold glyph. destruct (String.get _ _); [done|]. by intros [= <-].
  - rewrite Hiff. change (N.to_nat (bucket xff)) with 7%nat. lia.
Qed.

(** X3: the index [p // 32] never decreases when the luminance grows, it
    is one of 0..7, and index [j] is taken exactly by the luminances from
    [32 * j] to [32 * j + 31]. *)
Theorem X3_bucket_monotone (p q : byte) :
  (Byte.to_N p ≤ Byte.to_N q)%N →
  (bucket p ≤ bucket q)%N
  ∧ (bucket q < 8)%N
  ∧ ∀ j, bucket p = j ↔ (32 * j ≤ Byte.to_N p ≤ 32 * j + 31)%N.
Proof.
  intros Hpq. split; [by apply bucket_mono|]. split; [apply bucket_lt_8|].
  intros j. rewrite bucket_boundaries. lia.
Qed.

Lemma strip_app (pre s : string) : strip pre (pre +:+ s) = Some s.
Proof.
  induction pre as [|a pre IH]; simpl; [by destruct s|].
  by rewrite Ascii.eqb_refl.
Qed.

Lemma read_u8_fmt (c : byte) (sep : ascii) (s : string) :
  sep = ";"%char ∨ sep = "m"%char →
  read_u8 (fmt_u8 c +:+ String sep s) = Some (c, String sep s).
Proof. intros [-> | ->]; destruct c; reflexivity. Qed.

Lemma decode_color_cell (p : pixel) (s : string) :
  decode_cell (color_cell p +:+ s) = Some (p, s).
Proof.
  destruct p as [b g r]. unfold decode_cell, color_cell. simpl blue. simpl green.
  simpl red. rewrite !string_app_assoc.
  rewrite <-(string_app_assoc ESC "[48;2;"), strip_app. simpl.
  change (";" +:+ fmt_u8 g +:+ ";" +:+ fmt_u8 b +:+ "m " +:+ s)
    with (String ";" (fmt_u8 g +:+ ";" +:+ fmt_u8 b +:+ "m " +:+ s)).
  rewrite read_u8_fmt by (by left). simpl.
  change (";" +:+ fmt_u8 b +:+ "m " +:+ s)
    with (String ";" (fmt_u8 b +:+ "m " +:+ s)).
  rewrite read_u8_fmt by (by left). simpl.
  change ("m " +:+ s) with (String "m" (String " " s)).
  rewrite read_u8_fmt by (by right). simpl. done.
Qed.

Lemma color_line_cons (p : pixel) (row : list pixel) :
  color_line (p :: row) = color_cell p +:+ color_line row.
Proof.
  unfold color_line. rewrite fmap_cons.
  change (join_empty (color_cell p :: (color_cell <$> row)))
    with (color_cell p +:+ join_empty (color_cell <$> row)).
  apply string_app_assoc.
Qed.

(** X4: the colour encoding loses nothing: two rows with the same colour
    line are the same row of pixels. *)
Theorem X4_color_line_injective (row1 row2 : list pixel) :
  color_line row1 = color_line row2 → row1 = row2.
Proof.
  revert row2. induction row1 as [|p row1 IH]; intros [|q row2] Heq.
  - done.
  - rewrite color_line_cons in Heq.
    apply (f_equal decode_cell) in Heq. rewrite decode_color_cell in Heq.
    discriminate Heq.
  - rewrite color_line_cons in Heq.
    apply (f_equal decode_cell) in Heq. rewrite decode_color_cell in Heq.
    discriminate Heq.
  - rewrite !color_line_cons in Heq.
    apply (f_equal decode_cell) in Heq. rewrite !decode_color_cell in Heq.
    injection Heq as -> Hrest. f_equal. by apply IH.
Qed.
End encoder_more.

(** * More on the store and on playback *)

Section play_more.

(** X5: what [sync_frame] leaves in the mirror depends on the archive and
    on the rows of the mirror only, never on what the rows held: a second
    synchronisation wins over the first. The archive and the [line_no] of
    the mirror are not touched. *)
Theorem X5_sync_overwrites (f g : Z) (d : db) :
  sync_frame f (sync_frame g d) = sync_frame f d
  ∧ frame_library (sync_frame f d) = frame_library d
  ∧ dom (display (sync_frame f d)) = dom (display d).
Proof.
  split; [apply sync_frame_sync|]. split; [done|apply sync_frame_dom].
Qed.

(** X6: [read_current] returns one content for every row of the mirror,
    in strictly increasing order of [line_no]. *)
Theorem X6_read_current_ordered (d : db) :
  ∃ keys : list Z,
    Sorted Z.le keys ∧ NoDup keys
    ∧ (∀ k, k ∈ keys ↔ is_Some (display d !! k))
    ∧ read_current d = (λ k, default None (display d !! k)) <$> keys.
Proof.
  exists (merge_sort Z.le (elements (dom (display d)))).
  assert (Sorted Z.le (merge_sort Z.le (elements (dom (display d))))) as Hs
    by apply Sorted_merge_sort, _.
  assert (NoDup (merge_sort Z.le (elements (dom (display d))))) as Hn
    by (rewrite merge_sort_Permutation; apply NoDup_elements).
  assert (∀ k, k ∈ merge_sort Z.le (elements (dom (display d)))
               ↔ is_Some (display d !! k)) as Hk
    by (intros k; by rewrite merge_sort_Permutation, elem_of_elements, elem_of_dom).
  split; [done|]. split; [done|]. split; [done|].
  by apply read_current_keys.
Qed.

Lemma sync_frame_size (f : Z) (d : db) :
  size (display (sync_frame f d)) = size (display d).
Proof. by rewrite <-!size_dom, sync_frame_dom. Qed.

Lemma play_loop_final (fps total : Z) (ids : list Z) (d : db) (shown : list tick) :
  frame_library (final (play_loop fps total ids d shown)) = frame_library d
  ∧ dom (display (final (play_loop fps total ids d shown))) = dom (display d).
Proof.
  revert d shown. induction ids as [|f ids IH]; intros d shown; simpl; [done|].
  destruct (join_lines _); simpl; [|split; [done|apply sync_frame_dom]].
  case_bool_decide; simpl; [split; [done|apply sync_frame_dom]|].
  destruct (IH (sync_frame f d)
              (shown ++ [Tick f total a
                 ((f + 1) * Z.of_nat (length (read_current (sync_frame f d))))]))
    as [-> ->].
  split; [done|apply sync_frame_dom].
Qed.

(** X7: playback never writes to the archive and never adds or removes a
    row of the mirror, however it ends. *)
Theorem X7_play_keeps_archive (eng : engine) (fps : Z) :
  frame_library (final (play eng fps)) = frame_library (conn eng)
  ∧ dom (display (final (play eng fps))) = dom (display (conn eng)).
Proof.
  unfold play. destruct (max_frame_id (conn eng)); [|done].
  apply play_loop_final.
Qed.

Lemma play_loop_prefix (fps total : Z) (ids : list Z) (d : db) (shown : list tick) :
  ∃ (k : nat) (new : list tick),
    ticks (play_loop fps total ids d shown) = shown ++ new
    ∧ tick_frame <$> new = take k ids
    ∧ (k ≤ length ids)%nat
    ∧ (ending (play_loop fps total ids d shown) = Returned → k = length ids)
    ∧ Forall (λ t, tick_total t = total
                   ∧ tick_updates t
                     = (tick_frame t + 1) * Z.of_nat (size (display d))) new.
Proof.
  revert d shown. induction ids as [|f ids IH]; intros d shown; simpl.
  { exists 0%nat, []. by rewrite app_nil_r. }
  destruct (join_lines _) as [output|e]; simpl.
  2:{ exists 0%nat, []. rewrite app_nil_r. repeat split; [lia|done|constructor]. }
  rewrite read_current_length, sync_frame_size.
  case_bool_decide; simpl.
  { exists 1%nat, [Tick f total output ((f + 1) * Z.of_nat (size (display d)))].
    repeat split; [lia|done|]. by repeat constructor. }
  destruct (IH (sync_frame f d)
              (shown ++ [Tick f total output ((f + 1) * Z.of_nat (size (display d)))]))
    as (k & new & -> & Hframes & Hk & Hret & Hall).
  exists (S k), (Tick f total output ((f + 1) * Z.of_nat (size (display d))) :: new).
  rewrite <-app_assoc. split; [done|]. split; [by rewrite fmap_cons, Hframes|].
  split; [simpl; lia|]. split; [intros Hr; by rewrite (Hret Hr)|].
  constructor; [done|]. by rewrite sync_frame_size in Hall.
Qed.

Lemma take_range (k : nat) (n : Z) :
  take k (range n) = seqZ 0 (Z.of_nat (min k (Z.to_nat n))).
Proof.
  unfold range, seqZ. rewrite <-fmap_take, take_seq. by rewrite Nat2Z.id.
Qed.

(** X8: whatever the database holds and however playback ends, the frames
    put on the terminal are 0, 1, ..., m-1 for some m: none is skipped or
    shown twice, none is beyond the largest frame number, all are shown
    when [play] returns, and each status line carries the largest frame
    number and (frame + 1) times the number of rows of the mirror. *)
Theorem X8_play_shows_a_prefix (eng : engine) (fps : Z) :
  ∃ m : nat,
    tick_frame <$> ticks (play eng fps) = seqZ 0 (Z.of_nat m)
    ∧ match max_frame_id (conn eng) with
      | None => m = 0%nat
      | Some total =>
          (m ≤ Z.to_nat (total + 1))%nat
          ∧ (ending (play eng fps) = Returned → m = Z.to_nat (total + 1))
          ∧ Forall (λ t, tick_total t = total
                         ∧ tick_updates t
                           = (tick_frame t + 1)
                             * Z.of_nat (size (display (conn eng))))
                   (ticks (play eng fps))
      end.
Proof.
  unfold play. destruct (max_frame_id (conn eng)) as [total|].
  2:{ exists 0%nat. by rewrite seqZ_nil. }
  destruct (play_loop_prefix fps total (range (total + 1)) (conn eng) [])
    as (k & new & Hticks & Hframes & Hk & Hret & Hall).
  simpl in Hticks. rewrite Hticks. unfold range in Hk, Hret.
  rewrite length_seqZ in Hk, Hret.
  exists k. rewrite Hframes, take_range.
  split; [do 2 f_equal; lia|]. split; [done|]. split; [|done].
  intros Hr. by apply Hret.
Qed.

(** X9: with a target rate of 0 playback shows frame 0 and is then left
    by [ZeroDivisionError], the pacing of the first tick dividing by the
    rate. *)
Theorem X9_play_zero_rate (eng : engine) (total : Z) :
  max_frame_id (conn eng) = Some total →
  0 ≤ total →
  playable (conn eng) 0 = true →
  tick_frame <$> ticks (play eng 0) = [0]
  ∧ ending (play eng 0) = Raised ZeroDivisionError.
Proof.
  intros Hmax Htotal Hplay. unfold play. rewrite Hmax. unfold range.
  rewrite seqZ_cons by lia. simpl.
  destruct (playable_join (conn eng) 0 0 Hplay) as [output ->]; [lia|].
  done.
Qed.

Lemma join_lines_None (contents : list (option string)) :
  None ∈ contents → join_lines contents = Raise TypeError.
Proof.
  induction contents as [|c contents IH]; [by intros ?%elem_of_nil|].
  intros [<-|Hin]%elem_of_cons; [done|].
  destruct c as [s|]; [|done]. destruct contents as [|c' contents].
  { by apply elem_of_nil in Hin. }
  change (join_lines (Some s :: c' :: contents))
    with (tl ← join_lines (c' :: contents); Ok (s +:+ String "010"%char tl)).
  by rewrite IH.
Qed.

Lemma play_loop_app (fps total : Z) (ids1 ids2 : list Z) (d : db)
    (shown : list tick) :
  fps ≠ 0 →
  (∀ f, f ∈ ids1 → ∃ output, join_lines (read_current (sync_frame f d)) = Ok output) →
  ∃ d' shown',
    play_loop fps total (ids1 ++ ids2) d shown = play_loop fps total ids2 d' shown'
    ∧ tick_frame <$> shown' = (tick_frame <$> shown) ++ ids1
    ∧ ∀ f, sync_frame f d' = sync_frame f d.
Proof.
  intros Hfps. revert d shown.
  induction ids1 as [|f ids1 IH]; intros d shown Hjoin.
  { exists d, shown. by rewrite app_nil_r. }
  simpl. destruct (Hjoin f) as [output ->]; [by left|].
  rewrite bool_decide_eq_false_2 by done.
  destruct (IH (sync_frame f d)
              (shown ++ [Tick f total output
                 ((f + 1) * Z.of_nat (length (read_current (sync_frame f d))))]))
    as (d' & shown' & -> & Hframes & Hsync).
  { intros g Hg. rewrite sync_frame_sync. apply Hjoin. by right. }
  exists d', shown'. split; [done|]. split.
  - rewrite Hframes, fmap_app, <-app_assoc. done.
  - intros g. by rewrite Hsync, sync_frame_sync.
Qed.

(** X10: playback is left by [TypeError] at the first frame for which the
    archive has no row for some line of the mirror; the frames before it
    have been shown, the frames after it never are. *)
Theorem X10_play_stops_at_missing_line (eng : engine) (fps total k ln : Z) :
  max_frame_id (conn eng) = Some total →
  fps ≠ 0 →
  0 ≤ k ≤ total →
  playable (conn eng) (k - 1) = true →
  is_Some (display (conn eng) !! ln) →
  subquery (frame_library (conn eng)) k ln = None →
  tick_frame <$> ticks (play eng fps) = seqZ 0 k
  ∧ ending (play eng fps) = Raised TypeError.
Proof.
  intros Hmax Hfps Hk Hplay [c Hln] Hnone. unfold play. rewrite Hmax.
  unfold range. replace (total + 1) with (k + (total + 1 - k)) by lia.
  rewrite seqZ_app by lia. rewrite (seqZ_cons (0 + k)) by lia.
  destruct (play_loop_app fps total (seqZ 0 k)
              (0 + k :: seqZ (Z.succ (0 + k)) (Z.pred (total + 1 - k)))
              (conn eng) [] Hfps) as (d' & shown' & -> & Hframes & Hsync).
  { intros f Hf. rewrite elem_of_seqZ in Hf.
    apply (playable_join _ (k - 1)); [done|lia]. }
  simpl. rewrite Z.add_0_l, Hsync.
  rewrite join_lines_None; [done|].
  unfold read_current. apply list_elem_of_fmap. exists (ln, None).
  split; [done|]. rewrite merge_sort_Permutation. apply elem_of_map_to_list.
  by rewrite sync_frame_lookup, Hln, Hnone.
Qed.
End play_more.

(** * More on ingestion and on the command line *)

Section run_more.
Variable raw_frame : Type.
Variable resize : raw_frame → Z → Z → result (list (list pixel)).
Variable bgr2gray : pixel → byte.
Variable get_stream_url : string → string.
Variable video_capture : string → option (list raw_frame).
Variable terminal_size : Z * Z.
Variable frame_budget : string → Z → Z → Z.
Variable path_exists : string → bool.
Variable disk_db : string → db.

Hypothesis resize_rows : ∀ frame w h resized,
  resize frame w h = Ok resized → length resized = Z.to_nat h.

Abbreviation frame_to_ansi := (frame_to_ansi raw_frame resize bgr2gray).
Abbreviation ingest := (ingest raw_frame resize bgr2gray get_stream_url
                          video_capture terminal_size frame_budget).
Abbreviation main := (main raw_frame resize bgr2gray get_stream_url
                        video_capture terminal_size frame_budget
                        path_exists disk_db).
Abbreviation video_source := (video_source get_stream_url).
Abbreviation new_engine := (new_engine disk_db).

(** X11: when the source does not open, [ingest] has already emptied both
    tables and returns [False]; [main] then ends with exit status 0,
    having shown nothing. *)
Theorem X11_unopened_source (a : args) (src : string) :
  nonempty (play_db a) = None →
  source a = Some src →
  video_capture (video_source src) = None →
  (∀ eng, ingest eng (Some src) (duration a) (fps a) (color a)
          = Ok (with_conn eng (Db [] ∅), false))
  ∧ main a = ([Connected (default ":memory:" (nonempty (out a)))], Returned)
  ∧ exit_status (main a).2 = 0.
Proof.
  intros Hmode Hsrc Hcap.
  assert (∀ eng, ingest eng (Some src) (duration a) (fps a) (color a)
                 = Ok (with_conn eng (Db [] ∅), false)) as Hing.
  { intros eng. unfold Engine.ingest. by rewrite Hcap. }
  split; [done|].
  assert (main a = ([Connected (default ":memory:" (nonempty (out a)))], Returned))
    as ->; [|done].
  unfold Engine.main. by rewrite Hmode, Hsrc, Hing.
Qed.

Lemma ingest_nothing eng src dur fps uc stream :
  video_capture (video_source src) = Some stream →
  Z.min (Z.of_nat (length stream)) (frame_budget (video_source src) dur fps) ≤ 0 →
  ∃ eng', ingest eng (Some src) dur fps uc = Ok (eng', true)
          ∧ frame_library (conn eng') = [].
Proof.
  intros Hcap Hmin. unfold Engine.ingest. rewrite Hcap.
  rewrite ingest_loop_spec. simpl. rewrite Z.sub_0_r.
  assert (take (Z.to_nat (frame_budget (video_source src) dur fps)) stream = [])
    as ->.
  { destruct stream as [|frame stream]; [by rewrite take_nil|].
    simpl length in Hmin.
    replace (Z.to_nat (frame_budget (video_source src) dur fps)) with 0%nat by lia.
    done. }
  simpl.
  destruct (insert_display_many_fresh
              (range (py_or (display_h eng) (terminal_size.2 - 3)))
              (insert_frames [] (_prepare_tables (conn eng))))
    as (d' & Hd' & Hlib & _).
  { apply NoDup_seqZ. }
  { intros k _. apply lookup_empty. }
  change (insert_frames ([] ++ batch_of 0 []) (_prepare_tables (conn eng)))
    with (insert_frames [] (_prepare_tables (conn eng))).
  rewrite Hd'. simpl. eexists. split; [done|]. simpl. by rewrite Hlib.
Qed.

(** X12: when the source opens but no frame is read, the stream being
    empty or the frame budget not positive, the ingestion completes with an
    empty archive and the playback that follows is left by [TypeError]:
    [main] ends with status 1 and has shown nothing. *)
Theorem X12_nothing_ingested (a : args) (src : string) (stream : list raw_frame) :
  nonempty (play_db a) = None →
  source a = Some src →
  video_capture (video_source src) = Some stream →
  Z.min (Z.of_nat (length stream))
        (frame_budget (video_source src) (duration a) (fps a)) ≤ 0 →
  main a = ([Connected (default ":memory:" (nonempty (out a)))], Raised TypeError)
  ∧ exit_status (main a).2 = 1.
Proof.
  intros Hmode Hsrc Hcap Hmin.
  assert (main a = ([Connected (default ":memory:" (nonempty (out a)))],
                    Raised TypeError)) as ->; [|done].
  unfold Engine.main. rewrite Hmode, Hsrc.
  destruct (ingest_nothing (new_engine (default ":memory:" (nonempty (out a))))
              src (duration a) (fps a) (color a) stream Hcap Hmin)
    as (eng' & -> & Hlib).
  unfold play. by rewrite (proj2 (max_frame_id_None (conn eng')) Hlib).
Qed.

(** X13: an empty [--play-db] value does not select the replay: [main]
    connects to the ingestion database and is left by [AttributeError],
    there being no source. *)
Theorem X13_empty_play_db (a : args) :
  nonempty (play_db a) = None →
  source a = None →
  main a = ([Connected (default ":memory:" (nonempty (out a)))],
            Raised AttributeError)
  ∧ exit_status (main a).2 = 1.
Proof.
  intros Hmode Hsrc.
  assert (main a = ([Connected (default ":memory:" (nonempty (out a)))],
                    Raised AttributeError)) as ->; [|done].
  unfold Engine.main. by rewrite Hmode, Hsrc.
Qed.


Lemma rows_from_facts (f i0 : Z) (lines : list string) :
  length (rows_from f i0 lines) = length lines
  ∧ Forall (λ r, is_Some (content r) ∧ frame_id r = f
                 ∧ i0 ≤ line_no r < i0 + Z.of_nat (length lines))
           (rows_from f i0 lines).
Proof.
  revert i0. induction lines as [|x lines IH]; intros i0.
  { split; [done|constructor]. }
  rewrite rows_from_cons. destruct (IH (i0 + 1)) as [Hlen Hall].
  split; [simpl; by rewrite Hlen|].
  constructor; [simpl; split; [done|]; split; [done|lia]|].
  eapply Forall_impl; [exact Hall|]. simpl. intros r (? & ? & ?).
  split; [done|]. split; [done|lia].
Qed.

Lemma batch_of_facts (f0 H : Z) (frames : list (list string)) :
  Forall (λ lines, Z.of_nat (length lines) = H) frames →
  Z.of_nat (length (batch_of f0 frames)) = Z.of_nat (length frames) * H
  ∧ Forall (λ r, is_Some (content r)
                 ∧ f0 ≤ frame_id r < f0 + Z.of_nat (length frames)
                 ∧ 0 ≤ line_no r < H)
           (batch_of f0 frames).
Proof.
  intros Hall. revert f0.
  induction Hall as [|lines frames Hlen Hall IH]; intros f0.
  { split; [simpl; lia|constructor]. }
  simpl batch_of. change (frame_rows f0 lines) with (rows_from f0 0 lines).
  destruct (rows_from_facts f0 0 lines) as [Hl Hrows].
  destruct (IH (f0 + 1)) as [Hl' Hrest].
  split; [rewrite length_app, Hl; simpl length; lia|].
  apply Forall_app. split.
  - eapply Forall_impl; [exact Hrows|]. simpl. intros r (? & ? & ?).
    split; [done|]. split; lia.
  - eapply Forall_impl; [exact Hrest|]. simpl. intros r (? & ? & ?).
    split; [done|]. split; lia.
Qed.

(** X15: a completed ingestion stores (frames read) times (display
    height) rows; each holds text, a frame number below the number of
    frames read and a line number below the display height. *)
Theorem X15_archive_size eng src dur fps uc eng' stream :
  ingest eng (Some src) dur fps uc = Ok (eng', true) →
  video_capture (video_source src) = Some stream →
  Z.of_nat (length (frame_library (conn eng')))
  = Z.max 0 (Z.min (Z.of_nat (length stream))
                   (frame_budget (video_source src) dur fps))
    * Z.max 0 (py_or (display_h eng) (terminal_size.2 - 3))
  ∧ Forall (λ r, is_Some (content r)
                 ∧ 0 ≤ frame_id r
                   < Z.min (Z.of_nat (length stream))
                           (frame_budget (video_source src) dur fps)
                 ∧ 0 ≤ line_no r < py_or (display_h eng) (terminal_size.2 - 3))
           (frame_library (conn eng')).
Proof.
  intros Hing Hcap.
  destruct (ingest_inv _ _ _ _ _ _ _ _ _ _ _ _ _ Hing)
    as (stream' & frames & Hcap' & Hall & Hh & Hlib & Hdisp).
  rewrite Hcap in Hcap'. injection Hcap' as <-.
  set (h := py_or (display_h eng) (terminal_size.2 - 3)) in *.
  rewrite Hh in Hall.
  pose proof (encoded_heights _ _ _ resize_rows _ _ _ _ _ _ Hall) as Hheights.
  destruct (batch_of_facts 0 _ _ Hheights) as [Hlen Hrows].
  apply Forall2_length in Hall. rewrite length_take in Hall.
  rewrite Hlib. split; [rewrite Hlen; f_equal; lia|].
  eapply Forall_impl; [exact Hrows|]. simpl. intros r (? & ? & ?).
  split; [done|]. split; lia.
Qed.

Lemma join_lines_text (lines : list string) :
  join_lines (Some <$> lines) = Ok (join_nl lines).
Proof.
  induction lines as [|s lines IH]; [done|].
  destruct lines as [|s' lines]; [done|].
  change (join_lines (Some <$> s :: s' :: lines))
    with (tl ← join_lines (Some <$> s' :: lines);
          Ok (s +:+ String "010"%char tl)).
  by rewrite IH.
Qed.

Lemma synced_lines eng src dur fps uc eng' stream (k : nat) frame :
  ingest eng (Some src) dur fps uc = Ok (eng', true) →
  video_capture (video_source src) = Some stream →
  stream !! k = Some frame →
  Z.of_nat k < frame_budget (video_source src) dur fps →
  ∃ lines,
    frame_to_ansi (chars eng') (display_w eng') (display_h eng') frame uc
    = Ok lines
    ∧ read_current (sync_frame (Z.of_nat k) (conn eng')) = Some <$> lines.
Proof.
  intros Hing Hcap Hk Hbudget.
  destruct (ingest_inv _ _ _ _ _ _ _ _ _ _ _ _ _ Hing)
    as (stream' & frames & Hcap' & Hall & Hh & Hlib & Hdisp).
  rewrite Hcap in Hcap'. injection Hcap' as <-.
  set (h := py_or (display_h eng) (terminal_size.2 - 3)) in *.
  assert (take (Z.to_nat (frame_budget (video_source src) dur fps)) stream !! k
          = Some frame) as Hk' by (rewrite lookup_take_lt by lia; done).
  destruct (Forall2_lookup_l _ _ _ _ _ Hall Hk') as (lines & Hlines & Henc).
  exists lines. split; [done|].
  assert (length lines = Z.to_nat h) as Hlen.
  { rewrite Hh in Henc. destruct (display_w eng') as [w|]; [|done].
    by eapply frame_to_ansi_length. }
  rewrite (mirror_keys _ h (λ ln, subquery (frame_library (conn eng'))
                                    (Z.of_nat k) ln)).
  - apply list_eq. intros i. unfold range. rewrite !list_lookup_fmap.
    destruct (lines !! i) as [line|] eqn:Hi; simpl.
    + rewrite lookup_seqZ_lt by (apply lookup_lt_Some in Hi; lia). simpl.
      rewrite Hlib. f_equal.
      apply (subquery_batch_of 0 frames k i lines line Hlines Hi).
    + rewrite lookup_seqZ_ge; [done|]. apply lookup_ge_None in Hi. lia.
  - intros ln. rewrite sync_frame_lookup, Hdisp. by case_bool_decide.
Qed.

(** X16: after a completed ingestion, the tick of playback number [k]
    shows frame [k]: its text is the lines [frame_to_ansi] gave for the
    [k]-th frame read, joined by newlines, and its status line counts the
    frames read and (k + 1) times the display height. *)
Theorem X16_playback_shows_encoded_frames eng src dur fps uc eng' stream
    (k : nat) frame :
  ingest eng (Some src) dur fps uc = Ok (eng', true) →
  video_capture (video_source src) = Some stream →
  stream !! k = Some frame →
  Z.of_nat k < frame_budget (video_source src) dur fps →
  0 < py_or (display_h eng) (terminal_size.2 - 3) →
  fps ≠ 0 →
  ∃ lines,
    frame_to_ansi (chars eng') (display_w eng') (display_h eng') frame uc
    = Ok lines
    ∧ ticks (play eng' fps) !! k
      = Some (Tick (Z.of_nat k)
                   (Z.min (Z.of_nat (length stream))
                          (frame_budget (video_source src) dur fps) - 1)
                   (join_nl lines)
                   ((Z.of_nat k + 1)
                    * py_or (display_h eng) (terminal_size.2 - 3))).
Proof.
  intros Hing Hcap Hk Hbudget Hh Hfps.
  destruct (synced_lines _ _ _ _ _ _ _ _ _ Hing Hcap Hk Hbudget)
    as (lines & Henc & Hread).
  exists lines. split; [done|].
  pose proof (lookup_lt_Some _ _ _ Hk) as Hklen.
  destruct (ingest_playable _ _ _ _ _ _ _ resize_rows _ _ _ _ _ _ _
              Hing Hcap Hh) as [Hmax Hplay]; [lia|].
  set (n := Z.min _ _) in *.
  assert (size (display (conn eng'))
          = Z.to_nat (py_or (display_h eng) (terminal_size.2 - 3))) as Hsize.
  { destruct (ingest_inv _ _ _ _ _ _ _ _ _ _ _ _ _ Hing)
      as (_ & _ & _ & _ & _ & _ & Hdisp).
    rewrite <-read_current_length, (mirror_keys _ _ (λ _, Some "") Hdisp).
    unfold range. by rewrite length_fmap, length_seqZ. }
  unfold play. rewrite Hmax. unfold range.
  replace (n - 1 + 1) with (Z.of_nat k + (n - Z.of_nat k)) by lia.
  rewrite seqZ_app by lia. rewrite (seqZ_cons (0 + Z.of_nat k)) by lia.
  destruct (play_loop_app fps (n - 1) (seqZ 0 (Z.of_nat k))
              (0 + Z.of_nat k
               :: seqZ (Z.succ (0 + Z.of_nat k)) (Z.pred (n - Z.of_nat k)))
              (conn eng') [] Hfps) as (d' & shown' & -> & Hframes & Hsync).
  { intros f Hf. rewrite elem_of_seqZ in Hf.
    apply (playable_join _ (n - 1)); [done|lia]. }
  assert (length shown' = k) as Hshown.
  { apply (f_equal length) in Hframes.
    rewrite length_fmap, length_app, length_seqZ in Hframes. simpl in Hframes. lia. }
  simpl. rewrite Z.add_0_l, Hsync, Hread, join_lines_text.
  rewrite bool_decide_eq_false_2 by done.
  match goal with
  | |- context [ticks (play_loop ?r ?t ?ids ?d ?sh)] =>
      destruct (play_loop_prefix r t ids d sh) as (j & new & -> & _)
  end.
  rewrite <-app_assoc.
  rewrite lookup_app_r by lia. rewrite Hshown, Nat.sub_diag. simpl.
  do 3 f_equal. rewrite length_fmap.
  apply (f_equal length) in Hread.
  rewrite read_current_length, sync_frame_size, length_fmap in Hread.
  rewrite <-Hread, Hsize. lia.
Qed.

(** X17: replaying the database that an ingestion wrote shows the same
    frames, in the same order and with the same end, as the playback that
    followed that ingestion. *)
Theorem X17_replay_shows_the_same (a1 a2 : args) (eng' : engine) (path : string) :
  nonempty (play_db a1) = None →
  ingest (new_engine (default ":memory:" (nonempty (out a1))))
    (source a1) (duration a1) (fps a1) (color a1) = Ok (eng', true) →
  nonempty (play_db a2) = Some path →
  path_exists path = true →
  disk_db path = conn eng' →
  fps a2 = fps a1 →
  main a1 = (Connected (default ":memory:" (nonempty (out a1)))
               :: (Rendered <$> ticks (play eng' (fps a1))),
             ending (play eng' (fps a1)))
  ∧ main a2 = (Connected ":memory:" :: Connected path
                 :: (Rendered <$> ticks (play eng' (fps a1))),
               ending (play eng' (fps a1))).
Proof.
  intros Hmode1 Hing Hmode2 Hpath Hdisk Hfps. split.
  - unfold Engine.main. by rewrite Hmode1, Hing.
  - unfold Engine.main. rewrite Hmode2, Hpath, Hfps. simpl.
    unfold play. simpl. by rewrite Hdisk.
Qed.


End run_more.

(** * The further theorems on the two-frame clip *)

Section clip_more.
Import Clip.

Lemma X1_clip :
  ∃ lines,
    frame_to_ansi pixel solid_resize gray_level default_chars (Some 2) (Some 2)
      white false = Ok lines
    ∧ Forall2 (λ row line, String.length line = length row)
              [[white; white]; [white; white]] lines.
Proof.
  apply (X1_glyph_frame_shape pixel solid_resize gray_level default_chars 2 2
           white [[white; white]; [white; white]]).
  - simpl. lia.
  - reflexivity.
Defined.

Lemma X3_clip :
  (bucket x00 ≤ bucket xff)%N
  ∧ (bucket xff < 8)%N
  ∧ ∀ j, bucket x00 = j ↔ (32 * j ≤ Byte.to_N x00 ≤ 32 * j + 31)%N.
Proof. apply (X3_bucket_monotone x00 xff). simpl. lia. Defined.

Lemma X4_clip : [black; white] = [BGR x00 x00 x00; BGR xff xff xff].
Proof.
  apply (X4_color_line_injective [black; white]
           [BGR x00 x00 x00; BGR xff xff xff]).
  reflexivity.
Defined.

Lemma X9_clip :
  tick_frame <$> ticks (play ingested 0) = [0]
  ∧ ending (play ingested 0) = Raised ZeroDivisionError.
Proof.
  apply (X9_play_zero_rate ingested 1).
  - vm_compute. reflexivity.
  - lia.
  - vm_compute. reflexivity.
Defined.

Lemma X10_clip :
  tick_frame <$> ticks (play gapped 10) = seqZ 0 1
  ∧ ending (play gapped 10) = Raised TypeError.
Proof.
  apply (X10_play_stops_at_missing_line gapped 10 2 1 0).
  - vm_compute. reflexivity.
  - lia.
  - lia.
  - vm_compute. reflexivity.
  - exists (Some ""). vm_compute. reflexivity.
  - vm_compute. reflexivity.
Defined.

Lemma X11_clip :
  (∀ eng, ingest pixel solid_resize gray_level stream_url capture terminal budget
            eng (Some "nope.mp4") (duration ingest_nope) (fps ingest_nope)
            (color ingest_nope)
          = Ok (with_conn eng (Db [] ∅), false))
  ∧ main pixel solid_resize gray_level stream_url capture terminal budget
         no_path no_db ingest_nope
    = ([Connected (default ":memory:" (nonempty (out ingest_nope)))], Returned)
  ∧ exit_status
      (main pixel solid_resize gray_level stream_url capture terminal budget
            no_path no_db ingest_nope).2 = 0.
Proof.
  apply (X11_unopened_source pixel solid_resize gray_level stream_url capture
           terminal budget no_path no_db ingest_nope "nope.mp4").
  - reflexivity.
  - reflexivity.
  - reflexivity.
Defined.

Lemma X12_clip :
  main pixel solid_resize gray_level stream_url capture terminal budget
       no_path no_db ingest_zero
  = ([Connected (default ":memory:" (nonempty (out ingest_zero)))],
     Raised TypeError)
  ∧ exit_status
      (main pixel solid_resize gray_level stream_url capture terminal budget
            no_path no_db ingest_zero).2 = 1.
Proof.
  apply (X12_nothing_ingested pixel solid_resize gray_level stream_url capture
           terminal budget no_path no_db ingest_zero "clip.mp4" [black; white]).
  - reflexivity.
  - reflexivity.
  - reflexivity.
  - vm_compute. discriminate.
Defined.

Lemma X13_clip :
  main pixel solid_resize gray_level stream_url capture terminal budget
       no_path no_db empty_play_db
  = ([Connected (default ":memory:" (nonempty (out empty_play_db)))],
     Raised AttributeError)
  ∧ exit_status
      (main pixel solid_resize gray_level stream_url capture terminal budget
            no_path no_db empty_play_db).2 = 1.
Proof.
  apply (X13_empty_play_db pixel solid_resize gray_level stream_url capture
           terminal budget no_path no_db empty_play_db).
  - reflexivity.
  - reflexivity.
Defined.

Lemma X15_clip :
  Z.of_nat (length (frame_library (conn ingested)))
  = Z.max 0 (Z.min (Z.of_nat (length [black; white]))
                   (budget (video_source stream_url "clip.mp4") 1 10))
    * Z.max 0 (py_or (display_h fresh) (terminal.2 - 3))
  ∧ Forall (λ r, is_Some (content r)
                 ∧ 0 ≤ frame_id r
                   < Z.min (Z.of_nat (length [black; white]))
                           (budget (video_source stream_url "clip.mp4") 1 10)
                 ∧ 0 ≤ line_no r < py_or (display_h fresh) (terminal.2 - 3))
           (frame_library (conn ingested)).
Proof.
  apply (X15_archive_size pixel solid_resize gray_level stream_url capture
           terminal budget solid_resize_rows
           fresh "clip.mp4" 1 10 false ingested [black; white]).
  - vm_compute. reflexivity.
  - reflexivity.
Defined.

Lemma X16_clip :
  ∃ lines,
    frame_to_ansi pixel solid_resize gray_level (chars ingested)
      (display_w ingested) (display_h ingested) white false = Ok lines
    ∧ ticks (play ingested 10) !! 1%nat
      = Some (Tick (Z.of_nat 1)
                   (Z.min (Z.of_nat (length [black; white]))
                          (budget (video_source stream_url "clip.mp4") 1 10) - 1)
                   (join_nl lines)
                   ((Z.of_nat 1 + 1) * py_or (display_h fresh) (terminal.2 - 3))).
Proof.
  apply (X16_playback_shows_encoded_frames pixel solid_resize gray_level
           stream_url capture terminal budget solid_resize_rows
           fresh "clip.mp4" 1 10 false ingested [black; white] 1 white).
  - vm_compute. reflexivity.
  - reflexivity.
  - reflexivity.
  - vm_compute. reflexivity.
  - vm_compute. reflexivity.
  - lia.
Defined.

Lemma X17_clip :
  main pixel solid_resize gray_level stream_url capture terminal budget
       saved_path saved_db ingest_saved
  = (Connected (default ":memory:" (nonempty (out ingest_saved)))
       :: (Rendered <$> ticks (play saved (fps ingest_saved))),
     ending (play saved (fps ingest_saved)))
  ∧ main pixel solid_resize gray_level stream_url capture terminal budget
         saved_path saved_db replay_saved
    = (Connected ":memory:" :: Connected "clip.db"
         :: (Rendered <$> ticks (play saved (fps ingest_saved))),
       ending (play saved (fps ingest_saved))).
Proof.
  apply (X17_replay_shows_the_same pixel solid_resize gray_level stream_url
           capture terminal budget saved_path saved_db
           ingest_saved replay_saved saved "clip.db").
  - reflexivity.
  - vm_compute. reflexivity.
  - reflexivity.
  - reflexivity.
  - vm_compute. reflexivity.
  - reflexivity.
Defined.

End clip_more.

(** * Colour frames, and ingesting twice *)

Section ingest_more.
Variable raw_frame : Type.
Variable resize : raw_frame → Z → Z → result (list (list pixel)).
Variable bgr2gray : pixel → byte.
Variable get_stream_url : string → string.
Variable video_capture : string → option (list raw_frame).
Variable terminal_size : Z * Z.
Variable frame_budget : string → Z → Z → Z.

Lemma mapM_total {A B} (f : A → result B) (g : A → B) (l : list A) :
  (∀ x, f x = Ok (g x)) → mapM f l = Ok (g <$> l).
Proof.
  intros Hf. induction l as [|x l IH]; [done|].
  rewrite fmap_cons. apply mapM_cons_Ok; [apply Hf|exact IH].
Qed.

(** X19: colour mode encodes every frame that [cv2.resize] returns,
    whatever the ramp: the lines are the colour lines of the rows, in
    order. *)
Theorem X19_color_frame (chars : string) (w h : Z) (frame : raw_frame)
    (resized : list (list pixel)) :
  resize frame w h = Ok resized →
  frame_to_ansi raw_frame resize bgr2gray chars (Some w) (Some h) frame true
  = Ok (color_line <$> resized).
Proof.
  intros Hres. unfold frame_to_ansi. rewrite Hres.
  change (Ok resized ≫= mapM (encode_row bgr2gray chars true))
    with (mapM (encode_row bgr2gray chars true) resized).
  by apply mapM_total.
Qed.

Lemma py_or_again (x : option Z) (y : Z) : py_or (Some (py_or x y)) y = py_or x y.
Proof. unfold py_or. destruct x as [v|]; repeat case_bool_decide; lia. Qed.

(** X20: ingesting the same source again, from the engine a completed
    ingestion left, gives the same engine and database again: the display
    size stays as resolved and the archive is rebuilt, not appended to. *)
Theorem X20_ingest_again eng src dur fps uc eng' :
  ingest raw_frame resize bgr2gray get_stream_url video_capture terminal_size
    frame_budget eng (Some src) dur fps uc = Ok (eng', true) →
  ingest raw_frame resize bgr2gray get_stream_url video_capture terminal_size
    frame_budget eng' (Some src) dur fps uc = Ok (eng', true).
Proof.
  unfold ingest, with_conn, _prepare_tables.
  destruct (video_capture _) as [stream|]; [|done].
  destruct (ingest_loop _ _ _ _ _ _ _ _ _) as [fb|e] eqn:Hloop; [|done].
  change (Ok fb ≫= ?k) with (k fb). cbv beta.
  destruct (insert_display_many _ _) as [d2|e] eqn:Hins; [|done].
  change (Ok d2 ≫= ?k) with (k d2). cbv beta.
  intros [= <-]. cbn [display_w display_h chars db_path conn].
  rewrite !py_or_again, Hloop.
  change (Ok fb ≫= ?k) with (k fb). cbv beta. by rewrite Hins.
Qed.
End ingest_more.

Section clip_again.
Import Clip.

Lemma X19_clip :
  frame_to_ansi pixel solid_resize gray_level "" (Some 2) (Some 2) white true
  = Ok (color_line <$> [[white; white]; [white; white]]).
Proof.
  apply (X19_color_frame pixel solid_resize gray_level "" 2 2 white
           [[white; white]; [white; white]]).
  reflexivity.
Defined.

Lemma X20_clip : ingest_clip ingested false = Ok (ingested, true).
Proof.
  apply (X20_ingest_again pixel solid_resize gray_level stream_url capture
           terminal budget fresh "clip.mp4" 1 10 false ingested).
  vm_compute. reflexivity.
Defined.
End clip_again.

Section run_all.
Variable raw_frame : Type.
Variable resize : raw_frame → Z → Z → result (list (list pixel)).
Variable bgr2gray : pixel → byte.
Variable get_stream_url : string → string.
Variable video_capture : string → option (list raw_frame).
Variable terminal_size : Z * Z.
Variable frame_budget : string → Z → Z → Z.

Hypothesis resize_rows : ∀ frame w h resized,
  resize frame w h = Ok resized → length resized = Z.to_nat h.

(** X21: the playback that follows a completed ingestion of at least one
    frame, on a display of at least one line and at a rate that is not zero,
    shows as many frames as were read, numbered from 0 in order, and then
    returns. *)
Theorem X21_ingest_then_play_all eng src dur fps uc eng' stream :
  ingest raw_frame resize bgr2gray get_stream_url video_capture terminal_size
    frame_budget eng (Some src) dur fps uc = Ok (eng', true) →
  video_capture (video_source get_stream_url src) = Some stream →
  0 < py_or (display_h eng) (terminal_size.2 - 3) →
  0 < Z.min (Z.of_nat (length stream))
            (frame_budget (video_source get_stream_url src) dur fps) →
  fps ≠ 0 →
  tick_frame <$> ticks (play eng' fps)
  = range (Z.min (Z.of_nat (length stream))
                 (frame_budget (video_source get_stream_url src) dur fps))
  ∧ Z.of_nat (length (ticks (play eng' fps)))
    = Z.min (Z.of_nat (length stream))
            (frame_budget (video_source get_stream_url src) dur fps)
  ∧ ending (play eng' fps) = Returned.
Proof.
  intros Hing Hcap Hh Hn Hfps.
  destruct (ingest_then_play _ _ _ _ _ _ _ resize_rows _ _ _ _ _ _ _
              Hing Hcap Hh Hn Hfps) as [Hframes Hend].
  split; [done|]. split; [|done].
  apply (f_equal length) in Hframes. unfold range in Hframes.
  rewrite length_fmap, length_seqZ in Hframes. lia.
Qed.
End run_all.

Section clip_all.
Import Clip.

Lemma X21_clip :
  tick_frame <$> ticks (play ingested 10)
  = range (Z.min (Z.of_nat (length [black; white]))
                 (budget (video_source stream_url "clip.mp4") 1 10))
  ∧ Z.of_nat (length (ticks (play ingested 10)))
    = Z.min (Z.of_nat (length [black; white]))
            (budget (video_source stream_url "clip.mp4") 1 10)
  ∧ ending (play ingested 10) = Returned.
Proof.
  apply (X21_ingest_then_play_all pixel solid_resize gray_level stream_url
           capture terminal budget solid_resize_rows
           fresh "clip.mp4" 1 10 false ingested [black; white]).
  - vm_compute. reflexivity.
  - reflexivity.
  - vm_compute. reflexivity.
  - vm_compute. reflexivity.
  - lia.
Defined.
End clip_all.
